(** * The query translator of Aqqu ([query_translator/translator.py])

    A shallow embedding of [Query] and [QueryTranslator] and the properties
    of the translation pipeline: candidate concatenation, bounded execution
    with skipping of empty results, the scorer swap and its wiring of the
    candidate extender, and the order in which a [Query] is filled in.

    The translator only orchestrates collaborators whose code lives in other
    modules (parser, entity linker, answer-type identifier, pattern matcher,
    ranker, SPARQL backend).  They are the fields of the classes [Data] and
    [Collaborators] below: each operation is a function on an opaque
    external state [Ext]; the ones that may fail return an [outcome].
    Objects the translator itself creates or updates (entity linkers, the
    parameters held by a candidate extender) live in an explicit store, so
    that identity and aliasing are visible.  Times are Python floats: IEEE
    binary64 numbers, with the operations as the standard library specifies
    them ([SpecFloat], rounding to nearest even). *)

From Stdlib Require Import ZArith Lia Ascii String SpecFloat.
From stdpp Require Import base option list gmap.

Local Open Scope Z_scope.

(** ** Python values and exceptions *)

(** The result of a call: a value, or a raised exception. *)
Inductive outcome (E A : Type) : Type :=
| Return (a : A)
| Raise (e : E).
Arguments Return {E A} a.
Arguments Raise {E A} e.

(** [ranked_candidates[:n_top]]: a slice with a stop index only.  A negative
    stop counts from the end of the list. *)
Definition py_slice_to {A : Type} (l : list A) (n : Z) : list A :=
  if 0 <=? n then take (Z.to_nat n) l
  else take (Z.to_nat (Z.of_nat (length l) + n)) l.

(** [str.lower()] on text whose code points are below U+0100: the letters
    A-Z and the Latin-1 capitals (U+00C0-U+00DE without the multiplication
    sign U+00D7) move up by 32, everything else is unchanged. *)
Definition lower_ascii (c : ascii) : ascii :=
  let n := N_of_ascii c in
  if ((65 <=? n) && (n <=? 90))%N then ascii_of_N (n + 32)
  else if ((192 <=? n) && (n <=? 222) && negb (n =? 215))%N
       then ascii_of_N (n + 32)
       else c.

Fixpoint lower (s : string) : string :=
  match s with
  | EmptyString => EmptyString
  | String c s' => String (lower_ascii c) (lower s')
  end.

(** The capital letters below U+0100: A-Z, and U+00C0-U+00DE without the
    multiplication sign.  Each has its small letter 32 code points above. *)
Definition is_capital (c : ascii) : bool :=
  let n := N_of_ascii c in
  (((65 <=? n) && (n <=? 90)) || ((192 <=? n) && (n <=? 222) && negb (n =? 215)))%N.

(** Python floats. *)
Abbreviation float := spec_float.

Definition float_add : float -> float -> float := SFadd 53 1024.
Definition float_sub : float -> float -> float := SFsub 53 1024.
Definition float_mul : float -> float -> float := SFmul 53 1024.
Definition float_div : float -> float -> float := SFdiv 53 1024.

(** The float nearest to an int, as mixed arithmetic converts it; an
    infinity when the int is out of range. *)
Definition float_of_int (n : Z) : float := binary_normalize 53 1024 n 0 false.

Definition float_is_zero (x : float) : bool :=
  match x with
  | S754_zero _ => true
  | _ => false
  end.

Definition float_is_infinite (x : float) : bool :=
  match x with
  | S754_infinity _ => true
  | _ => false
  end.

(** The literal [0.001]: 4611686018427388 * 2^-62, the float nearest to
    1/1000. *)
Definition epsilon : float := S754_finite false 4611686018427388 (-62).

(** [(now - before) * 1000] *)
Definition milliseconds (now before : float) : float :=
  float_mul (float_sub now before) (float_of_int 1000).

(** The three structural templates of the pattern matcher. *)
Inductive Template : Type := ERT | ERMRT | ERMRERT.

(** The attributes of a [Query] that are assigned after its construction. *)
Inductive QueryField : Type :=
| F_tokens
| F_identified_entities
| F_target_type
| F_content_tokens
| F_relation_oracle.

#[global] Instance QueryField_eq_dec : EqDecision QueryField.
Proof. solve_decision. Defined.

#[global] Instance Template_eq_dec : EqDecision Template.
Proof. solve_decision. Defined.

(** The messages handed to the logger, with the values they are formatted
    from. *)
Inductive LogRecord : Type :=
| LogTranslating (query_text : string)
| LogTotalTranslationTime (duration : float)
| LogTranslationExecuted (num_sparql_queries : Z)
                         (translation_time avg_query_time : float)
| LogRanking (n_candidates : nat)
| LogFetching
| LogTruncating (n_top : Z)
| LogFetched (n_total_translations : nat) (n_translations : nat)
             (result_fetch_time avg_result_fetch_time : float)
| LogDone (query : string).

(** What a run does, in program order: the construction of the [Query],
    every later assignment to one of its attributes, every call of a
    pattern-matching method, and every log message. *)
Inductive Event : Type :=
| EvNewQuery
| EvSetattr (f : QueryField)
| EvMatch (t : Template)
| EvInfo (r : LogRecord).

(** Exceptions: [ZeroDivisionError], [OverflowError] and [TypeError] are
    the ones the translator's own statements could raise (a float division,
    the conversion of an int to a float, the use of an attribute that is
    still [None]); everything a collaborator raises is passed on unchanged. *)
Inductive exn (Err : Type) : Type :=
| ZeroDivisionError
| OverflowError
| TypeError
| CollaboratorError (e : Err).
Arguments ZeroDivisionError {Err}.
Arguments OverflowError {Err}.
Arguments TypeError {Err}.
Arguments CollaboratorError {Err} e.

(** Object identities. *)
Abbreviation loc := positive.


(** ** Data exchanged with the collaborators

    Opaque to the translator, apart from the few attributes it reads. *)
Class Data : Type := {
  Ext : Type;                   (* state of everything outside the translator *)
  Err : Type;                   (* what collaborators raise *)
  Doc : Type;                   (* a parsed [spacy] document *)
  Span : Type;
  IdentifiedEntity : Type;
  AnswerType : Type;
  RelationOracle : Type;
  QueryCandidate : Type;
  Row : Type;
  LinkerClass : Type;           (* the classes of entity linkers *)
  LinkerClass_eq_dec :: EqDecision LinkerClass;
  RankerParameters : Type;
  Ranker : Type;
  Backend : Type;
  Nlp : Type;
  EntityIndex : Type;
  AnswerTypeIdentifier : Type;
  (* [query_doc.text] *)
  doc_text : Doc -> string;
  (* [params.entity_linker_class] and [params.relation_oracle] *)
  params_entity_linker_class : RankerParameters -> LinkerClass;
  params_relation_oracle : RankerParameters -> option RelationOracle;
  (* [scorer.get_parameters()], which hands out [scorer.parameters] *)
  get_parameters : Ranker -> RankerParameters
}.

Section DataModel.
Context `{D : Data}.

(** [class Query]. Attributes that start as [None] are options. *)
Record Query : Type := mkQuery {
  text : string;
  target_type : option AnswerType;
  tokens : option Doc;
  content_tokens : option Span;
  identified_entities : option (list IdentifiedEntity);
  relation_oracle : option RelationOracle;
  is_count_query : bool
}.

(** [Query.__init__] *)
Definition Query_init (text : string) : Query :=
  {| text := lower text;
     target_type := None;
     tokens := None;
     content_tokens := None;
     identified_entities := None;
     relation_oracle := None;
     is_count_query := false |}.

(** The value an attribute is assigned. *)
Definition field_type (f : QueryField) : Type :=
  match f with
  | F_tokens => Doc
  | F_identified_entities => list IdentifiedEntity
  | F_target_type => option AnswerType
  | F_content_tokens => Span
  | F_relation_oracle => option RelationOracle
  end.

(** [query.f = v] *)
Definition update (q : Query) (f : QueryField) : field_type f -> Query :=
  match f with
  | F_tokens => fun d =>
      mkQuery (text q) (target_type q) (Some d) (content_tokens q)
              (identified_entities q) (relation_oracle q) (is_count_query q)
  | F_identified_entities => fun es =>
      mkQuery (text q) (target_type q) (tokens q) (content_tokens q)
              (Some es) (relation_oracle q) (is_count_query q)
  | F_target_type => fun t =>
      mkQuery (text q) t (tokens q) (content_tokens q)
              (identified_entities q) (relation_oracle q) (is_count_query q)
  | F_content_tokens => fun s =>
      mkQuery (text q) (target_type q) (tokens q) (Some s)
              (identified_entities q) (relation_oracle q) (is_count_query q)
  | F_relation_oracle => fun o =>
      mkQuery (text q) (target_type q) (tokens q) (content_tokens q)
              (identified_entities q) o (is_count_query q)
  end.

(** What [query_candidate.get_result] hands back: [None], or a list of row
    groups. *)
Inductive QueryResult : Type :=
| ResultNone
| ResultRows (groups : list (list Row)).

(** Python truth value of a result: [None] and the empty list are false. *)
Definition truthy (r : QueryResult) : bool :=
  match r with
  | ResultRows (_ :: _) => true
  | _ => false
  end.

(** [sum([len(rows) for rows in query_result])] *)
Definition count_rows (r : QueryResult) : nat :=
  match r with
  | ResultRows groups => sum_list (length <$> groups)
  | ResultNone => 0%nat
  end.

(** The named tuple built in [translate_and_execute_query]. *)
Record TranslationResult : Type := mkTranslationResult {
  query_candidate : QueryCandidate;
  query_result_rows : QueryResult
}.

(** An entity linker object: its identity, its class, and what it was built
    from. *)
Record EntityLinker : Type := mkEntityLinker {
  linker_id : loc;
  linker_class : LinkerClass;
  linker_parameters : RankerParameters;
  linker_entity_index : EntityIndex
}.

(** [class QueryTranslator]. The candidate extender is held by reference; its
    parameters are in the store. *)
Record QueryTranslator : Type := mkQueryTranslator {
  backend : Backend;
  query_extender : loc;
  entity_linker : EntityLinker;
  nlp : Nlp;
  scorer : Ranker;
  entity_index : EntityIndex;
  answer_type_identifier : AnswerTypeIdentifier
}.

(** [QueryPatternMatcher(query, self.query_extender, self.backend)] *)
Record QueryPatternMatcher : Type := mkQueryPatternMatcher {
  pm_query : Query;
  pm_extender : loc;
  pm_backend : Backend
}.

(** The store. *)
Record World : Type := mkWorld {
  ext : Ext;                                         (* collaborators' state *)
  allocated : gset loc;                              (* identities in use *)
  extender_parameters : gmap loc RankerParameters;   (* [extender.parameters] *)
  trace : list Event                                 (* what happened so far *)
}.

End DataModel.

(** ** Operations of the collaborators

    Parsing, entity linking, pattern matching (which queries the backend),
    ranking and result fetching may raise.  Reading a counter, the clock,
    answer-type identification and content-token extraction always return. *)
Class Collaborators `{D : Data} : Type := {
  (* [self.nlp(query_text)] *)
  nlp_call : Nlp -> string -> Ext -> outcome Err Doc * Ext;
  (* [entity_linker.identify_entities_in_tokens(tokens)] *)
  identify_entities_in_tokens :
    EntityLinker -> Doc -> Ext -> outcome Err (list IdentifiedEntity) * Ext;
  (* [answer_type_identifier.identify_target(query)]: the type it finds for
     the query *)
  identify_target : AnswerTypeIdentifier -> Query -> Ext -> option AnswerType * Ext;
  (* [get_content_tokens(tokens)] *)
  get_content_tokens : Doc -> Span;
  (* [pattern_matcher.match_ERT_pattern()] and its two siblings; the
     matcher sees the parameters its extender holds at that moment *)
  match_pattern :
    Template -> QueryPatternMatcher -> option RankerParameters ->
    Ext -> outcome Err (list QueryCandidate) * Ext;
  (* [ranker.rank_query_candidates(query_candidates)] *)
  rank_query_candidates :
    Ranker -> list QueryCandidate -> Ext -> outcome Err (list QueryCandidate) * Ext;
  (* [query_candidate.get_result(include_name=...)] *)
  get_result : QueryCandidate -> bool -> Ext -> outcome Err QueryResult * Ext;
  (* [backend.num_queries_executed], [backend.total_query_time] *)
  num_queries_executed : Backend -> Ext -> Z;
  total_query_time : Backend -> Ext -> float;
  (* [time.time()] *)
  clock : Ext -> float;
  (* what [init_from_config] loads: the configured backend, [spacy.load('en')],
     [ranker.SimpleScoreRanker(name)], the entity index and the answer-type
     identifier *)
  config_backend : Backend;
  spacy_load_en : Nlp;
  SimpleScoreRanker : string -> Ranker;
  EntityIndex_init_from_config : EntityIndex;
  AnswerTypeIdentifier_init_from_config : AnswerTypeIdentifier
}.

(** ** The monad: state that survives exceptions *)

Section Monad.
Context `{D : Data}.

Definition M (A : Type) : Type := World -> outcome (exn Err) A * World.

Definition ret {A : Type} (a : A) : M A := fun w => (Return a, w).

Definition bind {A B : Type} (m : M A) (k : A -> M B) : M B :=
  fun w =>
    match m w with
    | (Return a, w') => k a w'
    | (Raise e, w') => (Raise e, w')
    end.

Definition raise {A : Type} (e : exn Err) : M A := fun w => (Raise e, w).

Definition with_ext (w : World) (x : Ext) : World :=
  mkWorld x (allocated w) (extender_parameters w) (trace w).

(** A collaborator that may raise, run on the external state. *)
Definition call {A : Type} (f : Ext -> outcome Err A * Ext) : M A :=
  fun w =>
    match f (ext w) with
    | (Return a, x) => (Return a, with_ext w x)
    | (Raise e, x) => (Raise (CollaboratorError e), with_ext w x)
    end.

(** A collaborator that always returns. *)
Definition call_total {A : Type} (f : Ext -> A * Ext) : M A :=
  fun w => (Return (f (ext w)).1, with_ext w (f (ext w)).2).

(** Reading an attribute of a collaborator. *)
Definition observe {A : Type} (f : Ext -> A) : M A :=
  fun w => (Return (f (ext w)), w).

Definition emit (e : Event) : M unit :=
  fun w =>
    (Return tt,
     mkWorld (ext w) (allocated w) (extender_parameters w) (trace w ++ [e])).

(** [logger.info(...)] *)
Definition info (r : LogRecord) : M unit := emit (EvInfo r).

(** Using an attribute that must not be [None]. *)
Definition require {A : Type} (o : option A) : M A :=
  match o with
  | Some a => ret a
  | None => raise TypeError
  end.

(** [n + y] for an int [n] and a float [y]: the int is converted first,
    which fails when it is out of the range of floats. *)
Definition py_int_add_float (n : Z) (y : float) : M float :=
  if float_is_infinite (float_of_int n) then raise OverflowError
  else ret (float_add (float_of_int n) y).

(** [x / y] on floats: only a zero divisor is refused. *)
Definition py_truediv (x y : float) : M float :=
  if float_is_zero y then raise ZeroDivisionError else ret (float_div x y).

(** A new object: an identity no object in the store has. *)
Definition alloc : M loc :=
  fun w =>
    let l := fresh (allocated w) in
    (Return l,
     mkWorld (ext w) ({[l]} ∪ allocated w) (extender_parameters w) (trace w)).

End Monad.

Notation "x <- m ;; k" := (bind m (fun x => k))
  (at level 100, m at next level, right associativity).

(** ** The translator *)

Section Program.
Context `{C : Collaborators}.

(** [query.f = v], recorded in the trace. *)
Definition setattr (q : Query) (f : QueryField) (v : field_type f) : M Query :=
  _ <- emit (EvSetattr f) ;;
  ret (update q f v).

(** Modelled from the spec: [QueryCandidateExtender.set_parameters] of the
    pattern matcher module, which is not part of this file.  The extender is
    "notified of the new ranking parameters": it keeps them as its current
    parameters. *)
Definition set_parameters (extender : loc) (params : RankerParameters) : M unit :=
  fun w =>
    (Return tt,
     mkWorld (ext w) (allocated w)
             (<[extender := params]> (extender_parameters w)) (trace w)).

(** Modelled from the spec: [QueryCandidateExtender.init_from_config] of the
    pattern matcher module.  A new extender, which holds no parameters yet. *)
Definition QueryCandidateExtender_init_from_config : M loc := alloc.

(** Modelled from the spec: [init_from_config(params, entity_index)] of an
    entity linker class (entity linker module).  The linker is "reconstructed
    from the new configuration's parameters": a new object of that class,
    built from the parameters and the entity index. *)
Definition EntityLinker_init_from_config
    (cls : LinkerClass) (params : RankerParameters) (index : EntityIndex)
    : M EntityLinker :=
  l <- alloc ;;
  ret (mkEntityLinker l cls params index).

(** [QueryTranslator.__init__] *)
Definition QueryTranslator_init
    (backend' : Backend) (query_extender' : loc) (entity_linker' : EntityLinker)
    (nlp' : Nlp) (scorer' : Ranker) (entity_index' : EntityIndex)
    (answer_type_identifier' : AnswerTypeIdentifier) : M QueryTranslator :=
  let self :=
    {| backend := backend';
       query_extender := query_extender';
       entity_linker := entity_linker';
       nlp := nlp';
       scorer := scorer';
       entity_index := entity_index';
       answer_type_identifier := answer_type_identifier' |} in
  _ <- set_parameters (query_extender self) (get_parameters scorer') ;;
  ret self.

(** [QueryTranslator.init_from_config] *)
Definition init_from_config : M QueryTranslator :=
  let backend := config_backend in
  query_extender <- QueryCandidateExtender_init_from_config ;;
  let nlp := spacy_load_en in
  let scorer := SimpleScoreRanker "DefaultScorer" in
  let entity_index := EntityIndex_init_from_config in
  entity_linker <-
    EntityLinker_init_from_config
      (params_entity_linker_class (get_parameters scorer))
      (get_parameters scorer) entity_index ;;
  let answer_type_identifier := AnswerTypeIdentifier_init_from_config in
  QueryTranslator_init backend query_extender entity_linker nlp scorer
                       entity_index answer_type_identifier.

(** [self.scorer = s] and [self.entity_linker = l] *)
Definition assign_scorer (self : QueryTranslator) (s : Ranker) : QueryTranslator :=
  mkQueryTranslator (backend self) (query_extender self) (entity_linker self)
                    (nlp self) s (entity_index self) (answer_type_identifier self).

Definition assign_entity_linker (self : QueryTranslator) (l : EntityLinker) : QueryTranslator :=
  mkQueryTranslator (backend self) (query_extender self) l
                    (nlp self) (scorer self) (entity_index self)
                    (answer_type_identifier self).

(** [QueryTranslator.set_scorer]; the result is [self] after the call. *)
Definition set_scorer (self : QueryTranslator) (scorer : Ranker) : M QueryTranslator :=
  let self := assign_scorer self scorer in
  let params := get_parameters scorer in
  self <-
    (if decide (linker_class (entity_linker self) <> params_entity_linker_class params)
     then
       linker <-
         EntityLinker_init_from_config
           (params_entity_linker_class params) params (entity_index self) ;;
       ret (assign_entity_linker self linker)
     else ret self) ;;
  _ <- set_parameters (query_extender self) params ;;
  ret self.

(** [QueryTranslator.get_scorer] *)
Definition get_scorer (self : QueryTranslator) : Ranker := scorer self.

(** [QueryTranslator.parse_and_identify_entities] *)
Definition parse_and_identify_entities
    (self : QueryTranslator) (query_text : string) : M Query :=
  query_doc <- call (nlp_call (nlp self) query_text) ;;
  _ <- emit EvNewQuery ;;
  let query := Query_init (doc_text query_doc) in
  query <- setattr query F_tokens query_doc ;;
  toks <- require (tokens query) ;;
  entities <- call (identify_entities_in_tokens (entity_linker self) toks) ;;
  query <- setattr query F_identified_entities entities ;;
  ret query.

(** Modelled from the spec: [AnswerTypeIdentifier.identify_target] of the
    answer type module, which is not part of this file.  It "mutates
    query.targetType in place": the type it identifies is assigned to
    [query.target_type]. *)
Definition run_identify_target
    (identifier : AnswerTypeIdentifier) (query : Query) : M Query :=
  t <- call_total (identify_target identifier query) ;;
  setattr query F_target_type t.

(** One of [match_ERT_pattern], [match_ERMRT_pattern] and
    [match_ERMRERT_pattern]. *)
Definition run_match (t : Template) (pm : QueryPatternMatcher) : M (list QueryCandidate) :=
  _ <- emit (EvMatch t) ;;
  fun w => call (match_pattern t pm (extender_parameters w !! pm_extender pm)) w.

(** [QueryTranslator.translate_query] *)
Definition translate_query
    (self : QueryTranslator) (query_text : string) : M (Query * list QueryCandidate) :=
  _ <- info (LogTranslating query_text) ;;
  start_time <- observe clock ;;
  query <- parse_and_identify_entities self query_text ;;
  query <- run_identify_target (answer_type_identifier self) query ;;
  query <- setattr query F_relation_oracle
             (params_relation_oracle (get_parameters (scorer self))) ;;
  toks <- require (tokens query) ;;
  query <- setattr query F_content_tokens (get_content_tokens toks) ;;
  let pattern_matcher :=
    mkQueryPatternMatcher query (query_extender self) (backend self) in
  ert_matches <- run_match ERT pattern_matcher ;;
  ermrt_matches <- run_match ERMRT pattern_matcher ;;
  ermrert_matches <- run_match ERMRERT pattern_matcher ;;
  now <- observe clock ;;
  let duration := milliseconds now start_time in
  _ <- info (LogTotalTranslationTime duration) ;;
  ret (query, ert_matches ++ ermrt_matches ++ ermrert_matches).

(** The loop of [translate_and_execute_query] over the retained
    candidates, with its two accumulators. *)
Fixpoint fetch_translations
    (candidates : list QueryCandidate) (translations : list TranslationResult)
    (n_total_translations : nat) : M (list TranslationResult * nat) :=
  match candidates with
  | [] => ret (translations, n_total_translations)
  | query_candidate :: rest =>
      query_result <- call (get_result query_candidate true) ;;
      if negb (truthy query_result)
      then fetch_translations rest translations n_total_translations
      else
        let n_total_translations :=
          (n_total_translations + count_rows query_result)%nat in
        let result := mkTranslationResult query_candidate query_result in
        fetch_translations rest (translations ++ [result]) n_total_translations
  end.

(** [QueryTranslator.translate_and_execute_query] *)
Definition translate_and_execute_query
    (self : QueryTranslator) (query : string) (n_top : Z)
    : M (Query * list TranslationResult) :=
  let translations := [] in
  num_sparql_queries <- observe (num_queries_executed (backend self)) ;;
  sparql_query_time <- observe (total_query_time (backend self)) ;;
  translated <- translate_query self query ;;
  let '(parsed_query, query_candidates) := translated in
  now <- observe (total_query_time (backend self)) ;;
  let translation_time := milliseconds now sparql_query_time in
  executed <- observe (num_queries_executed (backend self)) ;;
  let num_sparql_queries := executed - num_sparql_queries in
  divisor <- py_int_add_float num_sparql_queries epsilon ;;
  avg_query_time <- py_truediv translation_time divisor ;;
  _ <- info (LogTranslationExecuted num_sparql_queries translation_time avg_query_time) ;;
  _ <- info (LogRanking (length query_candidates)) ;;
  let ranker := scorer self in
  ranked_candidates <- call (rank_query_candidates ranker query_candidates) ;;
  _ <- info LogFetching ;;
  sparql_query_time <- observe (total_query_time (backend self)) ;;
  let n_total_translations := 0%nat in
  _ <- (if Z.of_nat (length ranked_candidates) >? n_top
        then info (LogTruncating n_top) else ret tt) ;;
  fetched <-
    fetch_translations (py_slice_to ranked_candidates n_top)
                       translations n_total_translations ;;
  let '(translations, n_total_translations) := fetched in
  now <- observe (total_query_time (backend self)) ;;
  let result_fetch_time := milliseconds now sparql_query_time in
  divisor <- py_int_add_float (Z.of_nat (length translations)) epsilon ;;
  avg_result_fetch_time <- py_truediv result_fetch_time divisor ;;
  _ <- info (LogFetched n_total_translations (length translations)
                        result_fetch_time avg_result_fetch_time) ;;
  _ <- info (LogDone query) ;;
  ret (parsed_query, translations).

End Program.

(** ** Vocabulary of the properties *)

(** The mantissa of a shifted number is positive and has more than [k]
    binary digits. *)
Definition wide (k : nat) (r : shr_record) : Prop :=
  exists q, shr_m r = Zpos q /\ (k < Pos.to_nat (digits2_pos q))%nat.

(** A float of sign [sx] that is neither a zero nor a NaN, with no exponent
    below [lo]. *)
Definition sound (lo : Z) (sx : bool) (x : float) : Prop :=
  x = S754_infinity sx \/ exists m e, x = S754_finite sx m e /\ lo <= e.

Section Vocabulary.
Context `{C : Collaborators}.

(** Modelled from the spec: the three [match_*_pattern] methods of
    [QueryPatternMatcher] (pattern matcher module, not part of this file).
    "Each template family is matched independently; a query with no
    identified entities yields empty lists for all three without error." *)
Definition no_entities_no_matches : Prop :=
  forall (t : Template) (pm : QueryPatternMatcher)
         (params : option RankerParameters) (x : Ext),
    identified_entities (pm_query pm) = Some [] ->
    exists x', match_pattern t pm params x = (Return [], x').

(** The candidates are fetched one after the other, in the order of the
    list, each on the state its predecessor left; every fetch returns. *)
Inductive fetched : list QueryCandidate -> Ext -> list QueryResult -> Ext -> Prop :=
| fetched_nil (x : Ext) : fetched [] x [] x
| fetched_cons (c : QueryCandidate) (cs : list QueryCandidate) (x x' x'' : Ext)
               (r : QueryResult) (rs : list QueryResult) :
    get_result c true x = (Return r, x') ->
    fetched cs x' rs x'' ->
    fetched (c :: cs) x (r :: rs) x''.

(** The candidates paired with their results, without the pairs whose
    result is false. *)
Definition nonempty_translations
    (cs : list QueryCandidate) (rs : list QueryResult) : list TranslationResult :=
  List.filter (fun t => truthy (query_result_rows t))
              (zip_with mkTranslationResult cs rs).

(** The assignments to attributes of the query, in the order of the trace. *)
Definition assignments (tr : list Event) : list QueryField :=
  omap (fun e => match e with EvSetattr f => Some f | _ => None end) tr.

(** The trace without the log messages. *)
Definition query_events (tr : list Event) : list Event :=
  List.filter (fun e => match e with EvInfo _ => false | _ => true end) tr.

(** What [translate_query] does to its query, start to end. *)
Definition lifecycle : list Event :=
  [ EvNewQuery;
    EvSetattr F_tokens;
    EvSetattr F_identified_entities;
    EvSetattr F_target_type;
    EvSetattr F_relation_oracle;
    EvSetattr F_content_tokens;
    EvMatch ERT;
    EvMatch ERMRT;
    EvMatch ERMRERT ].

(** The extender of a translator holds the parameters of its scorer. *)
Definition wired (self : QueryTranslator) (w : World) : Prop :=
  extender_parameters w !! query_extender self = Some (get_parameters (scorer self)).

(** The calls a client can make on a translator. *)
Inductive Op : Type :=
| OpSetScorer (s : Ranker)
| OpGetScorer
| OpTranslate (query_text : string)
| OpTranslateAndExecute (query : string) (n_top : Z).

(** One call, on the translator and the store.  An exception of a
    translation is caught by the client, who goes on with the store as the
    call left it; [set_scorer] has no statement that raises in this model,
    so the second branch of its case is never taken. *)
Definition step (st : QueryTranslator * World) (op : Op) : QueryTranslator * World :=
  let '(self, w) := st in
  match op with
  | OpSetScorer s =>
      match set_scorer self s w with
      | (Return self', w') => (self', w')
      | (Raise _, w') => (self, w')
      end
  | OpGetScorer => (self, w)
  | OpTranslate query_text => (self, (translate_query self query_text w).2)
  | OpTranslateAndExecute query n_top =>
      (self, (translate_and_execute_query self query n_top w).2)
  end.

Definition steps (ops : list Op) (st : QueryTranslator * World) : QueryTranslator * World :=
  fold_left step ops st.

(** What a run may raise: what a collaborator raised, or [OverflowError]
    for a count beyond the range of floats. *)
Definition foreseen (e : exn Err) : Prop :=
  match e with
  | CollaboratorError _ | OverflowError => True
  | ZeroDivisionError | TypeError => False
  end.

(** A run that touches neither the identities in use nor any extender's
    parameters, and raises nothing but what is foreseen. *)
Definition harmless {A : Type} (m : M A) : Prop :=
  forall w : World,
    allocated (m w).2 = allocated w /\
    extender_parameters (m w).2 = extender_parameters w /\
    (forall e, (m w).1 = Raise e -> foreseen e).

(** The order of assignments as the specification words it: the content
    tokens before the relation oracle. *)
Definition specified_order : list QueryField :=
  [F_tokens; F_identified_entities; F_target_type; F_content_tokens; F_relation_oracle].

(** The linker held is of the class the active scorer names. *)
Definition consistent (self : QueryTranslator) : Prop :=
  linker_class (entity_linker self)
  = params_entity_linker_class (get_parameters (scorer self)).

(** The linker and the extender of a translator are two objects of the
    store. *)
Definition well_formed (self : QueryTranslator) (w : World) : Prop :=
  linker_id (entity_linker self) ∈ allocated w /\
  query_extender self ∈ allocated w /\
  linker_id (entity_linker self) <> query_extender self.

(** The fetches up to the one that raises: the candidates before it were
    fetched in the order of the list, each on the state its predecessor
    left, and returned. *)
Inductive fetch_failure : list QueryCandidate -> Ext -> Err -> Ext -> Prop :=
| fetch_fails_here (c : QueryCandidate) (cs : list QueryCandidate) (x x' : Ext)
                   (err : Err) :
    get_result c true x = (Raise err, x') ->
    fetch_failure (c :: cs) x err x'
| fetch_fails_later (c : QueryCandidate) (cs : list QueryCandidate) (x x' x'' : Ext)
                    (r : QueryResult) (err : Err) :
    get_result c true x = (Return r, x') ->
    fetch_failure cs x' err x'' ->
    fetch_failure (c :: cs) x err x''.

(** What a translator is made of, apart from its scorer and its linker. *)
Definition same_parts (self self' : QueryTranslator) : Prop :=
  backend self' = backend self /\
  query_extender self' = query_extender self /\
  nlp self' = nlp self /\
  entity_index self' = entity_index self /\
  answer_type_identifier self' = answer_type_identifier self.

End Vocabulary.

(** ** What a run of [translate_query] amounts to *)

Section Runs.
Context `{C : Collaborators}.

(** The query after all five assignments. *)
Definition annotated
    (self : QueryTranslator) (query_doc : Doc)
    (entities : list IdentifiedEntity) (t : option AnswerType) : Query :=
  let query := Query_init (doc_text query_doc) in
  let query := update query F_tokens query_doc in
  let query := update query F_identified_entities entities in
  let query := update query F_target_type t in
  let query := update query F_relation_oracle
                 (params_relation_oracle (get_parameters (scorer self))) in
  update query F_content_tokens (get_content_tokens query_doc).

(** The query as the answer-type identifier sees it. *)
Definition linked (query_doc : Doc) (entities : list IdentifiedEntity) : Query :=
  update (update (Query_init (doc_text query_doc)) F_tokens query_doc)
         F_identified_entities entities.

(** The collaborators' part of a returning run of [translate_query]: the
    parser, the linker, the answer-type identifier and the three matchers,
    each on the state its predecessor left. *)
Inductive translation (self : QueryTranslator) (query_text : string) (w : World)
  : Query -> list QueryCandidate -> list QueryCandidate -> list QueryCandidate ->
    Ext -> Prop :=
| translation_intro
    (query_doc : Doc) (entities : list IdentifiedEntity)
    (ert ermrt ermrert : list QueryCandidate) (x1 x2 x4 x5 x6 : Ext) :
    let t := (identify_target (answer_type_identifier self) (linked query_doc entities) x2).1 in
    let x3 := (identify_target (answer_type_identifier self) (linked query_doc entities) x2).2 in
    let query := annotated self query_doc entities t in
    let pattern_matcher :=
      mkQueryPatternMatcher query (query_extender self) (backend self) in
    let params := extender_parameters w !! query_extender self in
    nlp_call (nlp self) query_text (ext w) = (Return query_doc, x1) ->
    identify_entities_in_tokens (entity_linker self) query_doc x1 = (Return entities, x2) ->
    match_pattern ERT pattern_matcher params x3 = (Return ert, x4) ->
    match_pattern ERMRT pattern_matcher params x4 = (Return ermrt, x5) ->
    match_pattern ERMRERT pattern_matcher params x5 = (Return ermrert, x6) ->
    translation self query_text w query ert ermrt ermrert x6.

(** The collaborator whose exception ends a run of [translate_query], and
    the state it leaves: the parser; the linker, once the parser has
    returned; a matcher, once everything before it has returned. *)
Inductive translation_failure (self : QueryTranslator) (query_text : string) (w : World)
  : Err -> Ext -> Prop :=
| parser_fails (err : Err) (x : Ext) :
    nlp_call (nlp self) query_text (ext w) = (Raise err, x) ->
    translation_failure self query_text w err x
| linker_fails (query_doc : Doc) (x1 : Ext) (err : Err) (x : Ext) :
    nlp_call (nlp self) query_text (ext w) = (Return query_doc, x1) ->
    identify_entities_in_tokens (entity_linker self) query_doc x1 = (Raise err, x) ->
    translation_failure self query_text w err x
| ert_fails (query_doc : Doc) (entities : list IdentifiedEntity) (x1 x2 : Ext)
            (err : Err) (x : Ext) :
    let t := (identify_target (answer_type_identifier self) (linked query_doc entities) x2).1 in
    let x3 := (identify_target (answer_type_identifier self) (linked query_doc entities) x2).2 in
    let pattern_matcher :=
      mkQueryPatternMatcher (annotated self query_doc entities t)
                            (query_extender self) (backend self) in
    let params := extender_parameters w !! query_extender self in
    nlp_call (nlp self) query_text (ext w) = (Return query_doc, x1) ->
    identify_entities_in_tokens (entity_linker self) query_doc x1 = (Return entities, x2) ->
    match_pattern ERT pattern_matcher params x3 = (Raise err, x) ->
    translation_failure self query_text w err x
| ermrt_fails (query_doc : Doc) (entities : list IdentifiedEntity) (x1 x2 x4 : Ext)
              (ert : list QueryCandidate) (err : Err) (x : Ext) :
    let t := (identify_target (answer_type_identifier self) (linked query_doc entities) x2).1 in
    let x3 := (identify_target (answer_type_identifier self) (linked query_doc entities) x2).2 in
    let pattern_matcher :=
      mkQueryPatternMatcher (annotated self query_doc entities t)
                            (query_extender self) (backend self) in
    let params := extender_parameters w !! query_extender self in
    nlp_call (nlp self) query_text (ext w) = (Return query_doc, x1) ->
    identify_entities_in_tokens (entity_linker self) query_doc x1 = (Return entities, x2) ->
    match_pattern ERT pattern_matcher params x3 = (Return ert, x4) ->
    match_pattern ERMRT pattern_matcher params x4 = (Raise err, x) ->
    translation_failure self query_text w err x
| ermrert_fails (query_doc : Doc) (entities : list IdentifiedEntity) (x1 x2 x4 x5 : Ext)
                (ert ermrt : list QueryCandidate) (err : Err) (x : Ext) :
    let t := (identify_target (answer_type_identifier self) (linked query_doc entities) x2).1 in
    let x3 := (identify_target (answer_type_identifier self) (linked query_doc entities) x2).2 in
    let pattern_matcher :=
      mkQueryPatternMatcher (annotated self query_doc entities t)
                            (query_extender self) (backend self) in
    let params := extender_parameters w !! query_extender self in
    nlp_call (nlp self) query_text (ext w) = (Return query_doc, x1) ->
    identify_entities_in_tokens (entity_linker self) query_doc x1 = (Return entities, x2) ->
    match_pattern ERT pattern_matcher params x3 = (Return ert, x4) ->
    match_pattern ERMRT pattern_matcher params x4 = (Return ermrt, x5) ->
    match_pattern ERMRERT pattern_matcher params x5 = (Raise err, x) ->
    translation_failure self query_text w err x.

(** The store a returning run of [translate_query] leaves. *)
Definition translated_world (query_text : string) (w : World) (x : Ext) : World :=
  mkWorld x (allocated w) (extender_parameters w)
          (trace w ++ [EvInfo (LogTranslating query_text)] ++ lifecycle
                   ++ [EvInfo (LogTotalTranslationTime (milliseconds (clock x) (clock (ext w))))]).

(** The collaborators' part of a returning run of
    [translate_and_execute_query]: the translation, the ranking of its
    candidates, and the fetches for the candidates within the limit; the two
    counts that are averaged over are in the range of floats. *)
Inductive execution (self : QueryTranslator) (query : string) (n_top : Z) (w : World)
  : Query -> list QueryCandidate -> list QueryCandidate -> list QueryResult ->
    Ext -> Ext -> Ext -> Prop :=
| execution_intro
    (parsed_query : Query) (ert ermrt ermrert ranked : list QueryCandidate)
    (results : list QueryResult) (x1 x2 x3 : Ext) :
    translation self query w parsed_query ert ermrt ermrert x1 ->
    rank_query_candidates (scorer self) (ert ++ ermrt ++ ermrert) x1
    = (Return ranked, x2) ->
    fetched (py_slice_to ranked n_top) x2 results x3 ->
    float_is_infinite
      (float_of_int (num_queries_executed (backend self) x1
                     - num_queries_executed (backend self) (ext w))) = false ->
    float_is_infinite
      (float_of_int
         (Z.of_nat (length (nonempty_translations (py_slice_to ranked n_top) results))))
    = false ->
    execution self query n_top w parsed_query (ert ++ ermrt ++ ermrert) ranked
              results x1 x2 x3.

(** [x / (n + 0.001)] *)
Definition average (x : float) (n : Z) : float :=
  float_div x (float_add (float_of_int n) epsilon).

(** What [translate_and_execute_query] logs after the translation. *)
Definition execution_log
    (self : QueryTranslator) (query : string) (n_top : Z) (w : World)
    (candidates ranked : list QueryCandidate) (results : list QueryResult)
    (x1 x2 x3 : Ext) : list Event :=
  let translation_time :=
    milliseconds (total_query_time (backend self) x1)
                 (total_query_time (backend self) (ext w)) in
  let num_sparql_queries :=
    num_queries_executed (backend self) x1 - num_queries_executed (backend self) (ext w) in
  let translations := nonempty_translations (py_slice_to ranked n_top) results in
  let result_fetch_time :=
    milliseconds (total_query_time (backend self) x3)
                 (total_query_time (backend self) x2) in
  [ EvInfo (LogTranslationExecuted num_sparql_queries translation_time
              (average translation_time num_sparql_queries));
    EvInfo (LogRanking (length candidates));
    EvInfo LogFetching ]
  ++ (if Z.of_nat (length ranked) >? n_top then [EvInfo (LogTruncating n_top)] else [])
  ++ [ EvInfo (LogFetched (sum_list (count_rows <$> results)) (length translations)
                 result_fetch_time
                 (average result_fetch_time (Z.of_nat (length translations))));
       EvInfo (LogDone query) ].

(** The store a returning run of [translate_and_execute_query] leaves. *)
Definition executed_world
    (self : QueryTranslator) (query : string) (n_top : Z) (w : World)
    (candidates ranked : list QueryCandidate) (results : list QueryResult)
    (x1 x2 x3 : Ext) : World :=
  mkWorld x3 (allocated w) (extender_parameters w)
          (trace (translated_world query w x1)
           ++ execution_log self query n_top w candidates ranked results x1 x2 x3).


End Runs.

(** ** A small concrete world

    Collaborators simple enough to run: the parser keeps the text, the
    linker takes every capitalised word after the first for an entity, the
    matcher builds one candidate per entity for the templates ERT and ERMRT
    and none for ERMRERT, the ranker reverses the candidates, and only ERT
    candidates have rows. Every backend query is counted and takes half a
    millisecond of backend time and a millisecond on the clock. *)
Module Toy.

Inductive linker_class : Type := PlainLinker | FancyLinker.

#[global] Instance linker_class_eq_dec : EqDecision linker_class.
Proof. solve_decision. Defined.

Record params : Type := mkParams {
  p_class : linker_class;
  p_oracle : option string
}.

Record ranker : Type := mkRanker {
  r_name : string;
  r_parameters : params
}.

Record state : Type := mkState {
  executed : Z;
  query_time : float;
  wall_clock : float
}.

(** [n] backend queries. *)
Definition bump (x : state) (n : nat) : state :=
  mkState (executed x + Z.of_nat n)
          (float_add (query_time x)
                     (float_div (float_of_int (Z.of_nat n)) (float_of_int 2000)))
          (float_add (wall_clock x)
                     (float_div (float_of_int (Z.of_nat n)) (float_of_int 1000))).

Fixpoint words_from (s : string) (cur : string) : list string :=
  match s with
  | EmptyString => if String.eqb cur EmptyString then [] else [cur]
  | String c s' =>
      if Ascii.eqb c " "%char
      then (if String.eqb cur EmptyString then words_from s' EmptyString
            else cur :: words_from s' EmptyString)
      else words_from s' (String.append cur (String c EmptyString))
  end.

Definition words (s : string) : list string := words_from s EmptyString.

Definition capitalised (s : string) : bool :=
  match s with
  | String c _ => ((65 <=? N_of_ascii c) && (N_of_ascii c <=? 90))%N
  | EmptyString => false
  end.

Definition data : Data :=
  {| Ext := state;
     Err := string;
     Doc := string;
     Span := list string;
     IdentifiedEntity := string;
     AnswerType := nat;
     RelationOracle := string;
     QueryCandidate := Template * string;
     Row := string;
     LinkerClass := linker_class;
     LinkerClass_eq_dec := linker_class_eq_dec;
     RankerParameters := params;
     Ranker := ranker;
     Backend := unit;
     Nlp := unit;
     EntityIndex := unit;
     AnswerTypeIdentifier := unit;
     doc_text := fun d => d;
     params_entity_linker_class := p_class;
     params_relation_oracle := p_oracle;
     get_parameters := r_parameters |}.

Definition link (d : string) : list string :=
  List.filter capitalised (tail (words d)).

Definition matches (t : Template) (pm : @QueryPatternMatcher data) : list (Template * string) :=
  match t with
  | ERMRERT => []
  | _ => pair t <$> default [] (@identified_entities data (@pm_query data pm))
  end.

Definition rows (c : Template * string) : @QueryResult data :=
  match c.1 with
  | ERT => @ResultRows data [[c.2]]
  | ERMRT => @ResultRows data []
  | ERMRERT => @ResultNone data
  end.

Definition default_params : params := mkParams PlainLinker None.

Definition collaborators : @Collaborators data :=
  {| nlp_call := fun _ query_text x => (Return (query_text : @Doc data), x);
     identify_entities_in_tokens := fun _ d x => (Return (link d), x);
     identify_target := fun _ _ x => (Some 0%nat, x);
     get_content_tokens := fun d => words d;
     match_pattern := fun t pm _ x =>
       (Return (matches t pm), bump x (length (matches t pm)));
     rank_query_candidates := fun _ cs x => (Return (rev cs), x);
     get_result := fun c _ x => (Return (rows c), bump x 1);
     num_queries_executed := fun _ x => executed x;
     total_query_time := fun _ x => query_time x;
     clock := wall_clock;
     config_backend := tt;
     spacy_load_en := tt;
     SimpleScoreRanker := fun name => mkRanker name default_params;
     EntityIndex_init_from_config := tt;
     AnswerTypeIdentifier_init_from_config := tt |}.

Definition default_scorer : ranker := mkRanker "DefaultScorer"%string default_params.

(** A scorer of the same linker class and one of another. *)
Definition oracle_scorer : ranker :=
  mkRanker "OracleScorer"%string (mkParams PlainLinker (Some "founded_by"%string)).

Definition fancy_scorer : ranker := mkRanker "FancyScorer"%string (mkParams FancyLinker None).

Definition linker : @EntityLinker data :=
  @mkEntityLinker data 2%positive PlainLinker default_params tt.

Definition self : @QueryTranslator data :=
  @mkQueryTranslator data tt 1%positive linker tt default_scorer tt tt.

Definition world : @World data :=
  @mkWorld data (mkState 0 (float_of_int 0) (float_of_int 0))
           {[1%positive; 2%positive]}
           {[1%positive := default_params]} [].

(** A question with two entities, and one with none. *)
Definition question : string := "Who founded Berlin and Paris".

Definition plain_question : string := "who is it".

Abbreviation translate_run :=
  (@translate_query data collaborators self question world).

Abbreviation execute_run n_top :=
  (@translate_and_execute_query data collaborators self question n_top world).

(** The query both runs hand back. *)
Definition parsed : @Query data :=
  @mkQuery data "who founded berlin and paris" (Some 0%nat)
           (Some question) (Some ["Who"; "founded"; "Berlin"; "and"; "Paris"]%string)
           (Some ["Berlin"; "Paris"]%string) None false.

Definition candidates : list (Template * string) :=
  [(ERT, "Berlin"); (ERT, "Paris"); (ERMRT, "Berlin"); (ERMRT, "Paris")]%string.

(** What is kept of the first three ranked candidates. *)
Definition kept : list (@TranslationResult data) :=
  [@mkTranslationResult data (ERT, "Paris"%string) (@ResultRows data [["Paris"%string]])].

Abbreviation parse_run :=
  (@parse_and_identify_entities data collaborators self question world).

Abbreviation translate_plain_run :=
  (@translate_query data collaborators self plain_question world).

Abbreviation execute_plain_run n_top :=
  (@translate_and_execute_query data collaborators self plain_question n_top world).

(** A session: two scorer changes around a translation, then an execution. *)
Definition session : list (@Op data) :=
  [ @OpSetScorer data fancy_scorer;
    @OpTranslate data question;
    @OpSetScorer data oracle_scorer;
    @OpGetScorer data;
    @OpTranslateAndExecute data question 3 ].

(** The same world with collaborators that give out: the parser refuses an
    empty text, the ERMRT matcher fails on the entity Troy, the ranker cannot
    score a candidate for Atlantis, and the result of the ERT candidate for
    Paris cannot be fetched. *)
Definition mentions (name : string) (cs : list (Template * string)) : bool :=
  existsb (fun c => String.eqb c.2 name) cs.

Definition failure {A : Type} (message : string) (x : state)
  : outcome string A * state :=
  (Raise message, x).

Definition flaky_nlp_call (_ : @Nlp data) (query_text : string) (x : @Ext data)
  : outcome (@Err data) (@Doc data) * @Ext data :=
  if String.eqb query_text EmptyString then failure "empty question" x
  else (Return query_text, x).

Definition flaky_match_pattern (t : Template) (pm : @QueryPatternMatcher data)
    (_ : option (@RankerParameters data)) (x : @Ext data)
  : outcome (@Err data) (list (@QueryCandidate data)) * @Ext data :=
  match t with
  | ERMRT =>
      if mentions "Troy" (matches t pm) then failure "timeout" (bump x 1)
      else (Return (matches t pm), bump x (length (matches t pm)))
  | _ => (Return (matches t pm), bump x (length (matches t pm)))
  end.

Definition flaky_rank_query_candidates (_ : @Ranker data)
    (cs : list (@QueryCandidate data)) (x : @Ext data)
  : outcome (@Err data) (list (@QueryCandidate data)) * @Ext data :=
  if mentions "Atlantis" cs then failure "no model" x else (Return (rev cs), x).

Definition flaky_get_result (c : @QueryCandidate data) (_ : bool)
    (x : @Ext data)
  : outcome (@Err data) (@QueryResult data) * @Ext data :=
  match c with
  | (ERT, name) =>
      if String.eqb name "Paris" then failure "backend down" (bump x 1)
      else (Return (rows c), bump x 1)
  | _ => (Return (rows c), bump x 1)
  end.

Definition flaky : @Collaborators data :=
  {| nlp_call := flaky_nlp_call;
     identify_entities_in_tokens := fun _ d x => (Return (link d), x);
     identify_target := fun _ _ x => (Some 0%nat, x);
     get_content_tokens := fun d => words d;
     match_pattern := flaky_match_pattern;
     rank_query_candidates := flaky_rank_query_candidates;
     get_result := flaky_get_result;
     num_queries_executed := fun _ x => executed x;
     total_query_time := fun _ x => query_time x;
     clock := wall_clock;
     config_backend := tt;
     spacy_load_en := tt;
     SimpleScoreRanker := fun name => mkRanker name default_params;
     EntityIndex_init_from_config := tt;
     AnswerTypeIdentifier_init_from_config := tt |}.

Definition troy_question : string := "Who burnt Troy".

Definition atlantis_question : string := "Who sank Atlantis".

(** The whole ranking of [candidates], with the result of each. *)
Definition ranking : list (Template * string) :=
  [(ERMRT, "Paris"); (ERMRT, "Berlin"); (ERT, "Paris"); (ERT, "Berlin")]%string.

Definition all_kept : list (@TranslationResult data) :=
  [@mkTranslationResult data (ERT, "Paris"%string) (@ResultRows data [["Paris"%string]]);
   @mkTranslationResult data (ERT, "Berlin"%string) (@ResultRows data [["Berlin"%string]])].

Abbreviation flaky_translate_run query_text :=
  (@translate_query data flaky self query_text world).

Abbreviation flaky_execute_run query_text n_top :=
  (@translate_and_execute_query data flaky self query_text n_top world).

End Toy.

(** ** Properties *)

(** *** Python values *)

Example lower_example : lower "Who Founded BERLIN?" = "who founded berlin?"%string.
Proof. reflexivity. Qed.

Example py_slice_to_examples :
  py_slice_to [1; 2; 3] 2 = [1; 2] /\
  py_slice_to [1; 2; 3] 5 = [1; 2; 3] /\
  py_slice_to [1; 2; 3] 0 = [] /\
  py_slice_to [1; 2; 3] (-1) = [1; 2] /\
  py_slice_to [1; 2; 3] (-5) = [].
Proof. repeat split. Qed.

(** *** Lower-casing *)

Lemma lower_ascii_code (c : ascii) :
  N_of_ascii (lower_ascii c)
  = (if is_capital c then N_of_ascii c + 32 else N_of_ascii c)%N.
Proof. destruct c as [[] [] [] [] [] [] [] []]; vm_compute; reflexivity. Qed.

Lemma lower_ascii_not_capital (c : ascii) : is_capital (lower_ascii c) = false.
Proof. destruct c as [[] [] [] [] [] [] [] []]; vm_compute; reflexivity. Qed.

Lemma lower_length (s : string) : String.length (lower s) = String.length s.
Proof. induction s as [|c s IH]; cbn; [reflexivity | now rewrite IH]. Qed.

Lemma lower_get (s : string) :
  forall i : nat, String.get i (lower s) = lower_ascii <$> String.get i s.
Proof.
  induction s as [|c s IH]; intros [|i]; cbn; try reflexivity. apply IH.
Qed.

(** What [lower] does to a text, character by character: the length
    stays, a capital letter moves up by 32 code points, any other character
    stays, and no capital letter is left. *)
Lemma lower_characters (s : string) :
  String.length (lower s) = String.length s /\
  (forall (i : nat) (c : ascii),
     String.get i s = Some c ->
     exists c', String.get i (lower s) = Some c' /\
                N_of_ascii c'
                = (if is_capital c then N_of_ascii c + 32 else N_of_ascii c)%N) /\
  (forall (i : nat) (c' : ascii),
     String.get i (lower s) = Some c' -> is_capital c' = false).
Proof.
  split; [apply lower_length | split].
  - intros i c Hc. exists (lower_ascii c). rewrite lower_get, Hc.
    split; [reflexivity | apply lower_ascii_code].
  - intros i c' Hc'. rewrite lower_get in Hc'.
    destruct (String.get i s) as [c|]; [| discriminate Hc'].
    injection Hc' as <-. apply lower_ascii_not_capital.
Qed.

(** *** Binary64: a count plus 0.001 is never a zero *)

(** The literal is the correctly rounded quotient of 1 by 1000. *)
Lemma epsilon_is_a_thousandth : float_div (float_of_int 1) (float_of_int 1000) = epsilon.
Proof. vm_compute. reflexivity. Qed.

Lemma iter_pos_nat {A : Type} (f : A -> A) (p : positive) :
  forall x, SpecFloat.iter_pos f p x = Nat.iter (Pos.to_nat p) f x.
Proof.
  induction p as [p IH|p IH|]; intros x; cbn [SpecFloat.iter_pos].
  - rewrite !IH, Pos2Nat.inj_xI.
    replace (S (2 * Pos.to_nat p))%nat with (Pos.to_nat p + S (Pos.to_nat p))%nat by lia.
    rewrite Nat.iter_add, Nat.iter_succ_r. reflexivity.
  - rewrite !IH, Pos2Nat.inj_xO.
    replace (2 * Pos.to_nat p)%nat with (Pos.to_nat p + Pos.to_nat p)%nat by lia.
    rewrite Nat.iter_add. reflexivity.
  - reflexivity.
Qed.

Lemma shr_1_wide (k : nat) (r : shr_record) : wide (S k) r -> wide k (shr_1 r).
Proof.
  intros (q & Hm & Hk). destruct r as [m r s]. cbn in Hm. subst m.
  destruct q as [p|p|]; cbn in Hk |- *.
  - exists p. split; [reflexivity | lia].
  - exists p. split; [reflexivity | lia].
  - lia.
Qed.

Lemma iter_shr_1_wide (k : nat) :
  forall (j : nat) (r : shr_record),
    wide (k + j) r -> wide j (Nat.iter k shr_1 r).
Proof.
  induction k as [|k IH]; intros j r H; cbn [Nat.iter].
  - exact H.
  - apply shr_1_wide, IH. replace (k + S j)%nat with (S k + j)%nat by lia. exact H.
Qed.

Lemma shr_fexp_positive (m : positive) (e : Z) (l : location) :
  -1074 <= e ->
  exists q, shr_m (fst (shr_fexp 53 1024 (Zpos m) e l)) = Zpos q /\
            e <= snd (shr_fexp 53 1024 (Zpos m) e l).
Proof.
  intros He. unfold shr_fexp, shr, fexp, emin. cbn [Zdigits2].
  assert (Hrec : shr_m (shr_record_of_loc (Zpos m) l) = Zpos m)
    by (destruct l as [|[]]; reflexivity).
  destruct (Z.max (Z.pos (digits2_pos m) + e - 53) (3 - 1024 - 53) - e) as [|p|p] eqn:Hn;
    cbn [fst snd].
  - exists m. split; [exact Hrec | lia].
  - rewrite iter_pos_nat.
    destruct (iter_shr_1_wide (Pos.to_nat p) 0 (shr_record_of_loc (Zpos m) l))
      as (q & Hq & _).
    + exists m. split; [exact Hrec | lia].
    + exists q. split; [exact Hq | lia].
  - exists m. split; [exact Hrec | lia].
Qed.

Lemma round_nearest_even_positive (q : positive) (l : location) :
  exists q', round_nearest_even (Zpos q) l = Zpos q'.
Proof.
  destruct l as [|[]]; unfold round_nearest_even;
    try destruct (Z.even (Zpos q)); eexists; reflexivity.
Qed.

Lemma binary_round_aux_sound (sx : bool) (m : positive) (e : Z) (l : location) :
  -1074 <= e -> sound e sx (binary_round_aux 53 1024 sx (Zpos m) e l).
Proof.
  intros He. unfold binary_round_aux.
  destruct (shr_fexp_positive m e l He) as (q & Hq & He').
  destruct (shr_fexp 53 1024 (Zpos m) e l) as [mrs' e']. cbn [fst snd] in Hq, He'.
  rewrite Hq.
  destruct (round_nearest_even_positive q (loc_of_shr_record mrs')) as [q' ->].
  destruct (shr_fexp_positive q' e' loc_Exact ltac:(lia)) as (q'' & Hq'' & He'').
  destruct (shr_fexp 53 1024 (Zpos q') e' loc_Exact) as [mrs'' e''].
  cbn [fst snd] in Hq'', He''. rewrite Hq''.
  destruct (e'' <=? 1024 - 53); [right | left; reflexivity].
  exists q'', e''. split; [reflexivity | lia].
Qed.

Lemma binary_round_sound (lo : Z) (sx : bool) (m : positive) (e : Z) :
  -1074 <= lo -> lo <= e - 52 -> sound lo sx (binary_round 53 1024 sx m e).
Proof.
  intros Hlo He. unfold binary_round, shl_align.
  set (e0 := fexp 53 1024 (Z.pos (digits2_pos m) + e)).
  assert (He0 : lo <= e0) by (subst e0; unfold fexp, emin; lia).
  assert (Hweak : forall m' e', lo <= e' ->
            sound lo sx (binary_round_aux 53 1024 sx (Zpos m') e' loc_Exact)).
  { intros m' e' He'.
    destruct (binary_round_aux_sound sx m' e' loc_Exact ltac:(lia))
      as [-> | (q & e'' & -> & Hq)]; [left; reflexivity | right].
    exists q, e''. split; [reflexivity | lia]. }
  destruct (e0 - e) as [|p|p]; apply Hweak; lia.
Qed.

Lemma sound_not_zero (lo : Z) (sx : bool) (x : spec_float) :
  sound lo sx x -> float_is_zero x = false.
Proof. intros [-> | (m & e & -> & _)]; reflexivity. Qed.

Lemma shifted_not_epsilon (m d : positive) :
  10 <= Zpos d -> Pos.iter xO m d <> 4611686018427388%positive.
Proof.
  intros Hd. rewrite Pos2Nat.inj_iter.
  destruct (Pos.to_nat d) as [|[|[|k]]] eqn:Hk; try lia.
  cbn [Nat.iter]. discriminate.
Qed.

Lemma count_plus_epsilon_nonzero (n : Z) :
  float_is_zero (float_add (float_of_int n) epsilon) = false.
Proof.
  unfold float_of_int, binary_normalize.
  destruct n as [|p|p]; [reflexivity | |].
  - destruct (binary_round_sound (-52) false p 0 ltac:(lia) ltac:(lia))
      as [-> | (m & e & -> & He)]; [reflexivity |].
    unfold float_add, epsilon, SFadd, cond_Zopp. cbn [Z.add].
    apply (sound_not_zero (-1074) false). unfold binary_normalize.
    apply binary_round_sound; lia.
  - destruct (binary_round_sound (-52) true p 0 ltac:(lia) ltac:(lia))
      as [-> | (m & e & -> & He)]; [reflexivity |].
    unfold float_add, epsilon, SFadd, cond_Zopp, shl_align.
    replace (Z.min e (-62)) with (-62) by lia.
    replace (-62 - -62) with 0 by reflexivity.
    destruct (-62 - e) as [|d|d] eqn:Hd; try lia.
    cbn [fst].
    pose proof (shifted_not_epsilon m d ltac:(lia)) as Hne.
    set (a := Pos.iter xO m d) in *.
    assert (Hsum : - Z.pos a + 4611686018427388 <> 0) by lia.
    unfold binary_normalize.
    destruct (- Z.pos a + 4611686018427388) as [|s|s]; [contradiction | |].
    + apply (sound_not_zero (-1074) false), binary_round_sound; lia.
    + apply (sound_not_zero (-1074) true), binary_round_sound; lia.
Qed.

Section Properties.
Context `{C : Collaborators}.

(** *** The monad *)

Lemma bind_Return {A B : Type} (m : M A) (k : A -> M B) (w w1 : World) (a : A) :
  m w = (Return a, w1) -> bind m k w = k a w1.
Proof. intros H. unfold bind. now rewrite H. Qed.

Lemma bind_Return_inv {A B : Type} (m : M A) (k : A -> M B) (w w2 : World) (b : B) :
  bind m k w = (Return b, w2) ->
  exists a w1, m w = (Return a, w1) /\ k a w1 = (Return b, w2).
Proof.
  unfold bind. destruct (m w) as [[a|e] w1]; intros H.
  - exists a, w1. split; [reflexivity | exact H].
  - discriminate H.
Qed.

Lemma call_Return_inv {A : Type} (f : Ext -> outcome Err A * Ext) (w w1 : World) (a : A) :
  call f w = (Return a, w1) ->
  f (ext w) = (Return a, ext w1) /\ w1 = with_ext w (ext w1).
Proof.
  unfold call. destruct (f (ext w)) as [[a'|e] x]; intros H; inversion H; subst.
  split; reflexivity.
Qed.

Lemma call_Return {A : Type} (f : Ext -> outcome Err A * Ext) (w : World) (a : A) (x : Ext) :
  f (ext w) = (Return a, x) -> call f w = (Return a, with_ext w x).
Proof. intros H. unfold call. now rewrite H. Qed.

Lemma py_truediv_epsilon (t : float) (n : Z) (w : World) :
  py_truediv t (float_add (float_of_int n) epsilon) w = (Return (average t n), w).
Proof. unfold py_truediv. rewrite count_plus_epsilon_nonzero. reflexivity. Qed.

(** [t / (n + 0.001)] for a count [n] in the range of floats, and what
    follows it. *)
Lemma average_Return {A : Type} (t : float) (n : Z) (k : float -> M A) (w : World) :
  float_is_infinite (float_of_int n) = false ->
  bind (py_int_add_float n epsilon) (fun divisor => bind (py_truediv t divisor) k) w
  = k (average t n) w.
Proof.
  intros Hfits. unfold bind at 1, py_int_add_float. rewrite Hfits. unfold ret.
  unfold bind. rewrite py_truediv_epsilon. reflexivity.
Qed.

Lemma average_Return_inv
    {A : Type} (t : float) (n : Z) (k : float -> M A) (w w' : World) (a : A) :
  bind (py_int_add_float n epsilon) (fun divisor => bind (py_truediv t divisor) k) w
  = (Return a, w') ->
  float_is_infinite (float_of_int n) = false /\ k (average t n) w = (Return a, w').
Proof.
  destruct (float_is_infinite (float_of_int n)) eqn:Hfits.
  - unfold bind at 1, py_int_add_float. rewrite Hfits. discriminate.
  - rewrite average_Return by exact Hfits. auto.
Qed.

Lemma translate_query_returns
    (self : QueryTranslator) (query_text : string) (w : World) (query : Query)
    (ert ermrt ermrert : list QueryCandidate) (x : Ext) :
  translation self query_text w query ert ermrt ermrert x ->
  translate_query self query_text w
  = (Return (query, ert ++ ermrt ++ ermrert), translated_world query_text w x).
Proof.
  intros [doc es l1 l2 l3 x1 x2 x4 x5 x6 t x3 q pm params Hnlp Hlink H1 H2 H3].
  subst t x3 q pm params. unfold annotated, linked in *. cbn in H1, H2, H3.
  unfold translate_query, parse_and_identify_entities, run_identify_target,
    run_match, setattr,
    info, emit, observe, call_total, require, bind, ret, call, with_ext; cbn.
  rewrite Hnlp; cbn. rewrite Hlink; cbn.
  rewrite H1; cbn. rewrite H2; cbn. rewrite H3; cbn.
  unfold translated_world, lifecycle. repeat rewrite <- app_assoc. reflexivity.
Qed.

Lemma translate_query_inv
    (self : QueryTranslator) (query_text : string) (w w' : World) (query : Query)
    (candidates : list QueryCandidate) :
  translate_query self query_text w = (Return (query, candidates), w') ->
  exists ert ermrt ermrert x,
    translation self query_text w query ert ermrt ermrert x /\
    candidates = ert ++ ermrt ++ ermrert /\
    w' = translated_world query_text w x.
Proof.
  unfold translate_query, parse_and_identify_entities, run_identify_target,
    run_match, setattr,
    info, emit, observe, call_total, require, bind, ret, call, with_ext; cbn.
  destruct (nlp_call (nlp self) query_text (ext w)) as [[doc|e] x1] eqn:Hnlp;
    cbn; [| discriminate].
  destruct (identify_entities_in_tokens (entity_linker self) doc x1)
    as [[es|e] x2] eqn:Hlink; cbn; [| discriminate].
  pose proof (translation_intro self query_text w doc es) as Hrun.
  unfold annotated, linked in Hrun. cbn in Hrun.
  match goal with
  | |- context [match_pattern ERT ?pm ?ps ?x] =>
      destruct (match_pattern ERT pm ps x) as [[l1|e] x4] eqn:H1; cbn; [| discriminate]
  end.
  match goal with
  | |- context [match_pattern ERMRT ?pm ?ps ?x] =>
      destruct (match_pattern ERMRT pm ps x) as [[l2|e] x5] eqn:H2; cbn; [| discriminate]
  end.
  match goal with
  | |- context [match_pattern ERMRERT ?pm ?ps ?x] =>
      destruct (match_pattern ERMRERT pm ps x) as [[l3|e] x6] eqn:H3; cbn; [| discriminate]
  end.
  intros H. inversion H; subst. exists l1, l2, l3, x6.
  split; [| split].
  - exact (Hrun l1 l2 l3 x1 x2 x4 x5 x6 Hnlp Hlink H1 H2 H3).
  - reflexivity.
  - unfold translated_world, lifecycle. repeat rewrite <- app_assoc. reflexivity.
Qed.

(** *** The fetch loop *)

Lemma nonempty_translations_cons
    (c : QueryCandidate) (cs : list QueryCandidate)
    (r : QueryResult) (rs : list QueryResult) :
  nonempty_translations (c :: cs) (r :: rs)
  = if truthy r
    then mkTranslationResult c r :: nonempty_translations cs rs
    else nonempty_translations cs rs.
Proof. reflexivity. Qed.

Lemma count_rows_falsy (r : QueryResult) : truthy r = false -> count_rows r = 0%nat.
Proof. destruct r as [|[|g gs]]; cbn; intros H; [reflexivity | reflexivity | discriminate]. Qed.

Lemma fetch_translations_returns
    (cs : list QueryCandidate) (rs : list QueryResult) (x : Ext) :
  forall (w : World) (translations : list TranslationResult) (n : nat),
    fetched cs (ext w) rs x ->
    fetch_translations cs translations n w
    = (Return (translations ++ nonempty_translations cs rs,
               (n + sum_list (count_rows <$> rs))%nat),
       with_ext w x).
Proof.
  revert rs. induction cs as [|c cs IH]; intros rs w translations n Hf.
  - inversion Hf; subst. cbn. unfold ret, with_ext.
    rewrite app_nil_r, Nat.add_0_r. now destruct w.
  - inversion Hf as [|c' cs' x0 x' x'' r rs' Hget Hrest]; subst.
    cbn [fetch_translations].
    rewrite (bind_Return _ _ w (with_ext w x') r) by (now apply call_Return).
    rewrite nonempty_translations_cons. cbn [fmap list_fmap sum_list].
    destruct (truthy r) eqn:Ht; cbn [negb].
    + rewrite (IH rs' (with_ext w x')) by exact Hrest.
      rewrite <- app_assoc, Nat.add_assoc. reflexivity.
    + rewrite (IH rs' (with_ext w x')) by exact Hrest.
      rewrite (count_rows_falsy r Ht). reflexivity.
Qed.

Lemma fetch_translations_inv (cs : list QueryCandidate) :
  forall (w w' : World) (translations ts : list TranslationResult) (n n' : nat),
    fetch_translations cs translations n w = (Return (ts, n'), w') ->
    exists rs, fetched cs (ext w) rs (ext w').
Proof.
  induction cs as [|c cs IH]; intros w w' translations ts n n' H.
  - cbn in H. inversion H; subst. exists []. constructor.
  - cbn [fetch_translations] in H.
    apply bind_Return_inv in H as (r & w1 & Hcall & H).
    apply call_Return_inv in Hcall as [Hget Hw1].
    destruct (negb (truthy r)); apply IH in H as [rs Hrs];
      exists (r :: rs); econstructor; eauto;
      rewrite Hw1 in Hrs; exact Hrs.
Qed.

(** *** Runs of [translate_and_execute_query] *)

Lemma translate_and_execute_query_returns
    (self : QueryTranslator) (query : string) (n_top : Z) (w : World)
    (parsed_query : Query) (candidates ranked : list QueryCandidate)
    (results : list QueryResult) (x1 x2 x3 : Ext) :
  execution self query n_top w parsed_query candidates ranked results x1 x2 x3 ->
  translate_and_execute_query self query n_top w
  = (Return (parsed_query, nonempty_translations (py_slice_to ranked n_top) results),
     executed_world self query n_top w candidates ranked results x1 x2 x3).
Proof.
  intros [q ert ermrt ermrert rk rs y1 y2 y3 Htr Hrank Hfetch Hfits1 Hfits2].
  unfold translate_and_execute_query.
  unfold bind at 1. unfold observe at 1.
  unfold bind at 1. unfold observe at 1.
  rewrite (bind_Return _ _ _ _ _ (translate_query_returns _ _ _ _ _ _ _ _ Htr)).
  unfold bind at 1. unfold observe at 1.
  unfold bind at 1. unfold observe at 1.
  cbn [ext translated_world].
  rewrite average_Return by exact Hfits1.
  unfold bind at 1, info at 1, emit at 1.
  unfold bind at 1, info at 1, emit at 1.
  erewrite bind_Return; [| apply call_Return; cbn [ext translated_world]; exact Hrank].
  unfold bind at 1, info at 1, emit at 1.
  unfold bind at 1. unfold observe at 1.
  set (w2 := mkWorld _ _ _ _).
  assert (Htrunc : forall k : unit -> M (Query * list TranslationResult),
    bind (if Z.of_nat (length rk) >? n_top then info (LogTruncating n_top) else ret tt) k w2
    = k tt (mkWorld (ext w2) (allocated w2) (extender_parameters w2)
              (trace w2 ++ (if Z.of_nat (length rk) >? n_top
                            then [EvInfo (LogTruncating n_top)] else [])))).
  { intros k. unfold bind. destruct (Z.of_nat (length rk) >? n_top); cbn.
    - reflexivity.
    - rewrite app_nil_r. reflexivity. }
  rewrite Htrunc. clear Htrunc.
  erewrite bind_Return; [| apply fetch_translations_returns; cbn [ext]; exact Hfetch].
  cbn [app Nat.add].
  unfold bind at 1. unfold observe at 1.
  rewrite average_Return by exact Hfits2.
  unfold bind, info, emit, ret, with_ext, executed_world, execution_log.
  subst w2. cbn. repeat rewrite <- app_assoc. reflexivity.
Qed.

Lemma translate_and_execute_query_inv
    (self : QueryTranslator) (query : string) (n_top : Z) (w w' : World)
    (parsed_query : Query) (translations : list TranslationResult) :
  translate_and_execute_query self query n_top w
  = (Return (parsed_query, translations), w') ->
  exists candidates ranked results x1 x2 x3,
    execution self query n_top w parsed_query candidates ranked results x1 x2 x3 /\
    translations = nonempty_translations (py_slice_to ranked n_top) results /\
    w' = executed_world self query n_top w candidates ranked results x1 x2 x3.
Proof.
  intros H.
  assert (exists candidates ranked results x1 x2 x3,
    execution self query n_top w parsed_query candidates ranked results x1 x2 x3)
    as (cands & ranked & rs & x1 & x2 & x3 & Hex).
  { unfold translate_and_execute_query in H.
    apply bind_Return_inv in H as (n0 & w1 & H1 & H). inversion H1; subst; clear H1.
    apply bind_Return_inv in H as (t0 & w2 & H1 & H). inversion H1; subst; clear H1.
    apply bind_Return_inv in H as ([pq cands] & w3 & Htq & H).
    apply translate_query_inv in Htq as (ert & ermrt & ermrert & x1 & Htr & -> & ->).
    apply bind_Return_inv in H as (t1 & w4 & H1 & H). inversion H1; subst; clear H1.
    apply bind_Return_inv in H as (n1 & w5 & H1 & H). inversion H1; subst; clear H1.
    cbn [ext translated_world] in H.
    apply average_Return_inv in H as [Hfits1 H].
    apply bind_Return_inv in H as ([] & w7 & H1 & H). inversion H1; subst; clear H1.
    apply bind_Return_inv in H as ([] & w8 & H1 & H). inversion H1; subst; clear H1.
    apply bind_Return_inv in H as (ranked & w9 & Hrank & H).
    apply call_Return_inv in Hrank as [Hrank Hw9]. cbn [ext translated_world] in Hrank.
    apply bind_Return_inv in H as ([] & w10 & H1 & H). inversion H1; subst w10; clear H1.
    apply bind_Return_inv in H as (t2 & w11 & H1 & H). inversion H1; subst; clear H1.
    apply bind_Return_inv in H as ([] & w12 & Htrunc & H).
    assert (Hext : ext w12 = ext w9).
    { destruct (Z.of_nat (length ranked) >? n_top); inversion Htrunc; reflexivity. }
    apply bind_Return_inv in H as ([ts n] & w13 & Hfetch & H).
    destruct (fetch_translations_inv _ _ _ _ _ _ _ Hfetch) as [rs Hrs].
    rewrite (fetch_translations_returns _ _ _ w12 [] 0%nat Hrs) in Hfetch.
    cbn [app] in Hfetch. injection Hfetch as <- <- Hw13.
    apply bind_Return_inv in H as (t3 & w14 & H1 & H). inversion H1; subst t3 w14; clear H1.
    apply average_Return_inv in H as [Hfits2 H].
    assert (parsed_query = pq) as ->.
    { apply bind_Return_inv in H as ([] & w16 & H1 & H).
      apply bind_Return_inv in H as ([] & w17 & H2 & H).
      inversion H. reflexivity. }
    rewrite Hext in Hrs.
    exists (ert ++ ermrt ++ ermrert), ranked, rs, x1, (ext w9), (ext w13).
    constructor; assumption. }
  exists cands, ranked, rs, x1, x2, x3.
  rewrite (translate_and_execute_query_returns _ _ _ _ _ _ _ _ _ _ _ Hex) in H.
  inversion H. auto.
Qed.

(** *** What every run leaves alone, returning or not *)

Lemma harmless_ret {A : Type} (a : A) : harmless (ret a).
Proof. intros w. cbn. repeat split. intros e H. discriminate H. Qed.

Lemma harmless_bind {A B : Type} (m : M A) (k : A -> M B) :
  harmless m -> (forall a, harmless (k a)) -> harmless (bind m k).
Proof.
  intros Hm Hk w. unfold bind. destruct (Hm w) as (Ha & Hp & He).
  destruct (m w) as [[a|e] w1]; cbn in *.
  - destruct (Hk a w1) as (Ha' & Hp' & He').
    split; [congruence | split; [congruence | exact He']].
  - split; [exact Ha | split; [exact Hp |]].
    intros e' H'. apply He. congruence.
Qed.

Lemma harmless_call {A : Type} (f : Ext -> outcome Err A * Ext) : harmless (call f).
Proof.
  intros w. unfold call. destruct (f (ext w)) as [[a|e] x]; cbn; repeat split.
  - intros e H. discriminate H.
  - intros e' H. inversion H. exact I.
Qed.

Lemma harmless_call_total {A : Type} (f : Ext -> A * Ext) : harmless (call_total f).
Proof. intros w. cbn. repeat split. intros e H. discriminate H. Qed.

Lemma harmless_observe {A : Type} (f : Ext -> A) : harmless (observe f).
Proof. intros w. cbn. repeat split. intros e H. discriminate H. Qed.

Lemma harmless_emit (e : Event) : harmless (emit e).
Proof. intros w. cbn. repeat split. intros e' H. discriminate H. Qed.

Lemma harmless_info (r : LogRecord) : harmless (info r).
Proof. apply harmless_emit. Qed.

Lemma harmless_setattr (q : Query) (f : QueryField) (v : field_type f) :
  harmless (setattr q f v).
Proof. intros w. cbn. repeat split. intros e H. discriminate H. Qed.

Lemma harmless_require_Some {A : Type} (a : A) : harmless (require (Some a)).
Proof. apply harmless_ret. Qed.

Lemma harmless_average {A : Type} (t : float) (n : Z) (k : float -> M A) :
  (forall avg, harmless (k avg)) ->
  harmless (bind (py_int_add_float n epsilon)
                 (fun divisor => bind (py_truediv t divisor) k)).
Proof.
  intros Hk w. destruct (float_is_infinite (float_of_int n)) eqn:Hfits.
  - unfold bind at 1, py_int_add_float. rewrite Hfits. cbn.
    split; [reflexivity | split; [reflexivity |]].
    intros e He. inversion He. exact I.
  - rewrite average_Return by exact Hfits. apply Hk.
Qed.

Lemma harmless_run_match (t : Template) (pm : QueryPatternMatcher) :
  harmless (run_match t pm).
Proof.
  intros w. unfold run_match, bind, emit.
  match goal with |- context [call ?f ?w'] => destruct (harmless_call f w') as (Ha & Hp & He) end.
  repeat split; [rewrite Ha | rewrite Hp | exact He]; reflexivity.
Qed.

Create HintDb harmless.
#[local] Hint Resolve harmless_ret harmless_call harmless_call_total
  harmless_observe harmless_emit harmless_info harmless_setattr
  harmless_require_Some harmless_run_match : harmless.

(** Case analysis on the outcome of the next collaborator call. *)
Ltac next_call :=
  match goal with
  | |- context [nlp_call ?a ?b ?c] =>
      destruct (nlp_call a b c) as [[?|?] ?] eqn:?; cbn
  | |- context [identify_entities_in_tokens ?a ?b ?c] =>
      destruct (identify_entities_in_tokens a b c) as [[?|?] ?] eqn:?; cbn
  | |- context [match_pattern ERT ?b ?c ?d] =>
      destruct (match_pattern ERT b c d) as [[?|?] ?] eqn:?; cbn
  | |- context [match_pattern ERMRT ?b ?c ?d] =>
      destruct (match_pattern ERMRT b c d) as [[?|?] ?] eqn:?; cbn
  | |- context [match_pattern ERMRERT ?b ?c ?d] =>
      destruct (match_pattern ERMRERT b c d) as [[?|?] ?] eqn:?; cbn
  end.

Ltac unfold_translate_query :=
  unfold translate_query, parse_and_identify_entities, run_identify_target,
    run_match, setattr,
    info, emit, observe, call_total, require, bind, ret, call, with_ext; cbn.

Lemma harmless_translate_query (self : QueryTranslator) (query_text : string) :
  harmless (translate_query self query_text).
Proof.
  intros w. unfold_translate_query.
  repeat next_call;
    (split; [reflexivity | split; [reflexivity |]]);
    intros e' H'; inversion H'; exact I.
Qed.

Lemma harmless_fetch_translations (cs : list QueryCandidate) :
  forall (translations : list TranslationResult) (n : nat),
    harmless (fetch_translations cs translations n).
Proof.
  induction cs as [|c cs IH]; intros translations n; cbn [fetch_translations].
  - auto with harmless.
  - apply harmless_bind; [auto with harmless | intros r].
    destruct (negb (truthy r)); apply IH.
Qed.

Lemma harmless_translate_and_execute_query
    (self : QueryTranslator) (query : string) (n_top : Z) :
  harmless (translate_and_execute_query self query n_top).
Proof.
  unfold translate_and_execute_query.
  pose proof (harmless_translate_query self query).
  pose proof harmless_fetch_translations.
  repeat first
    [ progress auto with harmless
    | apply harmless_average; intros ?
    | apply harmless_bind; [| intros ?]
    | match goal with
      | |- harmless (let '(_, _) := ?p in _) => destruct p
      | |- harmless (if ?b then _ else _) => destruct b
      end ].
Qed.

(** *** The trace of [translate_query], returning or not *)

Lemma translate_query_trace (self : QueryTranslator) (query_text : string) (w : World) :
  exists added,
    trace (translate_query self query_text w).2 = trace w ++ added /\
    query_events added `prefix_of` lifecycle /\
    (forall v, (translate_query self query_text w).1 = Return v ->
               query_events added = lifecycle).
Proof.
  unfold_translate_query.
  repeat next_call;
    (eexists; split; [repeat rewrite <- app_assoc; reflexivity |]);
    (split; [cbn; eexists; reflexivity |]);
    intros v Hv; solve [discriminate Hv | reflexivity].
Qed.

(** *** Candidate generation *)

(** C3. Whenever [translate_query] returns, its candidate list is the match
    list of the ERT template, followed by that of ERMRT, followed by that of
    ERMRERT: the three matchers ran in this order on the returned query, each
    on the state the previous one left, and nothing is added, dropped or
    reordered, whatever the three lists are (any of them may be empty).  And
    it does return, with that concatenation, whenever the parser, the linker
    and the three matchers return. *)
Theorem translate_query_concatenates
    (self : QueryTranslator) (query_text : string) (w : World) :
  (forall (query : Query) (candidates : list QueryCandidate) (w' : World),
     translate_query self query_text w = (Return (query, candidates), w') ->
     exists ert_matches ermrt_matches ermrert_matches x0 x1 x2,
       let pattern_matcher :=
         mkQueryPatternMatcher query (query_extender self) (backend self) in
       let params := extender_parameters w !! query_extender self in
       match_pattern ERT pattern_matcher params x0 = (Return ert_matches, x1) /\
       match_pattern ERMRT pattern_matcher params x1 = (Return ermrt_matches, x2) /\
       match_pattern ERMRERT pattern_matcher params x2
       = (Return ermrert_matches, ext w') /\
       candidates = ert_matches ++ ermrt_matches ++ ermrert_matches) /\
  (forall (query : Query) (ert_matches ermrt_matches ermrert_matches : list QueryCandidate)
          (x : Ext),
     translation self query_text w query ert_matches ermrt_matches ermrert_matches x ->
     exists w',
       translate_query self query_text w
       = (Return (query, ert_matches ++ ermrt_matches ++ ermrert_matches), w') /\
       ext w' = x).
Proof.
  split.
  - intros query candidates w' H.
    apply translate_query_inv in H as (ert & ermrt & ermrert & x & Htr & -> & ->).
    destruct Htr as [doc es l1 l2 l3 x1 x2 x4 x5 x6 t x3 q pm params _ _ H1 H2 H3].
    exists l1, l2, l3, x3, x4, x5. cbn. auto.
  - intros query ert ermrt ermrert x Htr.
    exists (translated_world query_text w x).
    split; [exact (translate_query_returns _ _ _ _ _ _ _ _ Htr) | reflexivity].
Qed.

(** C6. When the parser returns and the entity linker identifies no entity,
    and the pattern matcher keeps its contract for queries without entities,
    [translate_query] returns, each of the three templates contributes the
    empty list, and the candidate list is empty. *)
Theorem translate_query_without_entities
    (self : QueryTranslator) (query_text : string) (w : World)
    (query_doc : Doc) (x1 x2 : Ext) :
  no_entities_no_matches ->
  nlp_call (nlp self) query_text (ext w) = (Return query_doc, x1) ->
  identify_entities_in_tokens (entity_linker self) query_doc x1 = (Return [], x2) ->
  exists query x,
    translation self query_text w query [] [] [] x /\
    identified_entities query = Some [] /\
    translate_query self query_text w
    = (Return (query, []), translated_world query_text w x).
Proof.
  intros Hcontract Hnlp Hlink.
  set (t := (identify_target (answer_type_identifier self) (linked query_doc []) x2).1).
  set (x3 := (identify_target (answer_type_identifier self) (linked query_doc []) x2).2).
  set (query := annotated self query_doc [] t).
  set (pm := mkQueryPatternMatcher query (query_extender self) (backend self)).
  set (params := extender_parameters w !! query_extender self).
  destruct (Hcontract ERT pm params x3 eq_refl) as [x4 H1].
  destruct (Hcontract ERMRT pm params x4 eq_refl) as [x5 H2].
  destruct (Hcontract ERMRERT pm params x5 eq_refl) as [x6 H3].
  assert (Htr : translation self query_text w query [] [] [] x6).
  { exact (translation_intro self query_text w query_doc [] [] [] []
             x1 x2 x4 x5 x6 Hnlp Hlink H1 H2 H3). }
  exists query, x6. split; [exact Htr | split; [reflexivity |]].
  exact (translate_query_returns self query_text w query [] [] [] x6 Htr).
Qed.

(** C5, as the code has it. Whatever [translate_query] does to its query
    happens in this order: the query is created, then [tokens],
    [identified_entities], [target_type], [relation_oracle] and
    [content_tokens] are assigned, then the three matchers are called; a run
    that raises stops somewhere on this path, a run that returns has walked
    all of it.  The relation oracle is set before the content tokens, and no
    attribute is assigned once pattern matching has begun. *)
Theorem translate_query_lifecycle
    (self : QueryTranslator) (query_text : string) (w : World) :
  exists added,
    trace (translate_query self query_text w).2 = trace w ++ added /\
    query_events added `prefix_of`
      [ EvNewQuery;
        EvSetattr F_tokens;
        EvSetattr F_identified_entities;
        EvSetattr F_target_type;
        EvSetattr F_relation_oracle;
        EvSetattr F_content_tokens;
        EvMatch ERT;
        EvMatch ERMRT;
        EvMatch ERMRERT ] /\
    (forall v, (translate_query self query_text w).1 = Return v ->
       assignments added
       = [F_tokens; F_identified_entities; F_target_type;
          F_relation_oracle; F_content_tokens] /\
       query_events added = lifecycle).
Proof.
  destruct (translate_query_trace self query_text w) as (added & Htrace & Hprefix & Hret).
  exists added. split; [exact Htrace | split; [exact Hprefix |]].
  intros v Hv. split; [| exact (Hret v Hv)].
  destruct (translate_query self query_text w) as [[[q cs]|e] w'] eqn:Hrun;
    [| discriminate Hv].
  apply translate_query_inv in Hrun as (ert & ermrt & ermrert & x & _ & _ & ->).
  cbn [trace translated_world snd] in Htrace.
  apply app_inv_head in Htrace. subst added. reflexivity.
Qed.

(** C10. The parser runs on the text as given, before any normalisation:
    when [parse_and_identify_entities] returns, the document is the parse of
    the raw [query_text], the query's [tokens] are that document and its
    entities were identified over it, while the query's [text] is the
    lower-cased text of the document: it is as long as the document's text
    and is that text, character for character, with every capital letter
    replaced by its small letter, 32 code points above, and every other
    character kept, so that no capital letter is left in it.  And it does
    return such a query whenever the parser and the linker return.  Texts
    are over the code points below U+0100. *)
Theorem parse_before_lowercase
    (self : QueryTranslator) (query_text : string) (w : World) :
  (forall (query : Query) (w' : World),
     parse_and_identify_entities self query_text w = (Return query, w') ->
     exists query_doc entities x1,
       nlp_call (nlp self) query_text (ext w) = (Return query_doc, x1) /\
       identify_entities_in_tokens (entity_linker self) query_doc x1
       = (Return entities, ext w') /\
       text query = lower (doc_text query_doc) /\
       tokens query = Some query_doc /\
       identified_entities query = Some entities /\
       String.length (text query) = String.length (doc_text query_doc) /\
       (forall (i : nat) (c : ascii),
          String.get i (doc_text query_doc) = Some c ->
          exists c', String.get i (text query) = Some c' /\
                     N_of_ascii c'
                     = (if is_capital c then N_of_ascii c + 32 else N_of_ascii c)%N) /\
       (forall (i : nat) (c' : ascii),
          String.get i (text query) = Some c' -> is_capital c' = false)) /\
  (forall (query_doc : Doc) (entities : list IdentifiedEntity) (x1 x2 : Ext),
     nlp_call (nlp self) query_text (ext w) = (Return query_doc, x1) ->
     identify_entities_in_tokens (entity_linker self) query_doc x1
     = (Return entities, x2) ->
     exists query w',
       parse_and_identify_entities self query_text w = (Return query, w') /\
       ext w' = x2 /\
       text query = lower (doc_text query_doc) /\
       tokens query = Some query_doc /\
       identified_entities query = Some entities /\
       String.length (text query) = String.length (doc_text query_doc) /\
       (forall (i : nat) (c : ascii),
          String.get i (doc_text query_doc) = Some c ->
          exists c', String.get i (text query) = Some c' /\
                     N_of_ascii c'
                     = (if is_capital c then N_of_ascii c + 32 else N_of_ascii c)%N) /\
       (forall (i : nat) (c' : ascii),
          String.get i (text query) = Some c' -> is_capital c' = false)).
Proof.
  unfold parse_and_identify_entities, setattr, require, emit, bind, ret, call, with_ext.
  cbn [tokens update Query_init ext]. split.
  - intros query w'.
    destruct (nlp_call (nlp self) query_text (ext w)) as [[doc|e] x1] eqn:Hnlp;
      cbn [tokens update Query_init ext]; [| discriminate].
    destruct (identify_entities_in_tokens (entity_linker self) doc x1)
      as [[es|e] x2] eqn:Hlink; cbn [tokens update Query_init ext]; [| discriminate].
    intros H. injection H as <- <-. exists doc, es, x1.
    cbn [text tokens identified_entities update Query_init ext].
    destruct (lower_characters (doc_text doc)) as (Hlen & Hget & Hcap).
    repeat (split; [first [reflexivity | assumption] |]). exact Hcap.
  - intros doc es x1 x2 Hnlp Hlink. rewrite Hnlp.
    cbn [tokens update Query_init ext]. rewrite Hlink.
    eexists _, _. split; [reflexivity |].
    cbn [text tokens identified_entities update Query_init ext].
    destruct (lower_characters (doc_text doc)) as (Hlen & Hget & Hcap).
    repeat (split; [first [reflexivity | assumption] |]). exact Hcap.
Qed.

(** *** Bounded execution *)

Lemma py_slice_to_nonneg {A : Type} (l : list A) (k : Z) :
  0 <= k -> py_slice_to l k = take (Z.to_nat k) l.
Proof. intros Hk. unfold py_slice_to. destruct (Z.leb_spec 0 k); [reflexivity | lia]. Qed.

Lemma py_slice_to_prefix {A : Type} (l : list A) (k : Z) : py_slice_to l k `prefix_of` l.
Proof. unfold py_slice_to. destruct (0 <=? k); apply prefix_take. Qed.

Lemma py_slice_to_length {A : Type} (l : list A) (k : Z) :
  0 <= k -> Z.of_nat (length (py_slice_to l k)) <= k.
Proof. intros Hk. rewrite py_slice_to_nonneg by exact Hk. rewrite length_take. lia. Qed.

Lemma nonempty_translations_length (cs : list QueryCandidate) (rs : list QueryResult) :
  (length (nonempty_translations cs rs) <= length cs)%nat.
Proof.
  revert rs. induction cs as [|c cs IH]; intros [|r rs];
    try (cbn; lia).
  rewrite nonempty_translations_cons. specialize (IH rs).
  destruct (truthy r); cbn [length]; lia.
Qed.

Lemma nonempty_translations_truthy (cs : list QueryCandidate) (rs : list QueryResult) :
  Forall (fun t => truthy (query_result_rows t) = true) (nonempty_translations cs rs).
Proof.
  unfold nonempty_translations. apply Forall_forall. intros t Ht.
  apply list_elem_of_In, filter_In in Ht. apply Ht.
Qed.

Lemma nonempty_translations_sublist (cs : list QueryCandidate) (rs : list QueryResult) :
  query_candidate <$> nonempty_translations cs rs `sublist_of` cs.
Proof.
  revert rs. induction cs as [|c cs IH]; intros [|r rs];
    try apply sublist_nil_l.
  rewrite nonempty_translations_cons. destruct (truthy r).
  - rewrite fmap_cons. apply sublist_skip, IH.
  - apply sublist_cons, IH.
Qed.

(** C1. For a limit [k >= 0], a returning [translate_and_execute_query]
    hands back at most [k] translation results, each with rows that are
    true (not [None], not empty); with the limit 0 the list is empty.  And
    it does return such a list whenever the collaborators return (and the
    two counts it averages over are in the range of floats). *)
Theorem translate_and_execute_query_bounded
    (self : QueryTranslator) (query : string) (k : Z) (w : World) :
  0 <= k ->
  (forall (parsed_query : Query) (translations : list TranslationResult) (w' : World),
     translate_and_execute_query self query k w
     = (Return (parsed_query, translations), w') ->
     Z.of_nat (length translations) <= k /\
     Forall (fun t => truthy (query_result_rows t) = true) translations /\
     (k = 0 -> translations = [])) /\
  (forall (parsed_query : Query) (candidates ranked : list QueryCandidate)
          (results : list QueryResult) (x1 x2 x3 : Ext),
     execution self query k w parsed_query candidates ranked results x1 x2 x3 ->
     exists translations w',
       translate_and_execute_query self query k w
       = (Return (parsed_query, translations), w') /\
       Z.of_nat (length translations) <= k).
Proof.
  intros Hk.
  assert (Hbound : forall ranked rs,
            Z.of_nat (length (nonempty_translations (py_slice_to ranked k) rs)) <= k).
  { intros ranked rs.
    pose proof (nonempty_translations_length (py_slice_to ranked k) rs).
    pose proof (py_slice_to_length ranked k Hk). lia. }
  split.
  - intros parsed_query translations w' H.
    apply translate_and_execute_query_inv in H
      as (cands & ranked & rs & x1 & x2 & x3 & _ & -> & _).
    split; [apply Hbound | split; [apply nonempty_translations_truthy |]].
    intros ->. specialize (Hbound ranked rs).
    destruct (nonempty_translations (py_slice_to ranked 0) rs); [reflexivity |].
    cbn in Hbound. lia.
  - intros parsed_query cands ranked rs x1 x2 x3 Hex.
    eexists _, _.
    split; [exact (translate_and_execute_query_returns _ _ _ _ _ _ _ _ _ _ _ Hex) |].
    apply Hbound.
Qed.

(** C2. The result list of a returning [translate_and_execute_query] is the
    ranked candidates up to the limit, each paired with the result fetched
    for it, without the pairs whose result is false.  The candidates are
    fetched in rank order; what remains is in rank order: the candidates of
    the result list are a subsequence of the truncated ranking, which is a
    prefix of the ranking.  A false result raises nothing: whatever the
    fetches return, the run returns, with the candidates of false result
    left out. *)
Theorem translate_and_execute_query_subsequence
    (self : QueryTranslator) (query : string) (n_top : Z) (w : World) :
  (forall (parsed_query : Query) (translations : list TranslationResult) (w' : World),
     translate_and_execute_query self query n_top w
     = (Return (parsed_query, translations), w') ->
     exists candidates ranked results w1 x2,
       translate_query self query w = (Return (parsed_query, candidates), w1) /\
       rank_query_candidates (scorer self) candidates (ext w1) = (Return ranked, x2) /\
       fetched (py_slice_to ranked n_top) x2 results (ext w') /\
       translations = nonempty_translations (py_slice_to ranked n_top) results /\
       query_candidate <$> translations `sublist_of` py_slice_to ranked n_top /\
       py_slice_to ranked n_top `prefix_of` ranked /\
       Forall (fun t => truthy (query_result_rows t) = true) translations) /\
  (forall (parsed_query : Query) (candidates ranked : list QueryCandidate)
          (results : list QueryResult) (x1 x2 x3 : Ext),
     execution self query n_top w parsed_query candidates ranked results x1 x2 x3 ->
     exists w',
       translate_and_execute_query self query n_top w
       = (Return (parsed_query,
                  nonempty_translations (py_slice_to ranked n_top) results), w') /\
       ext w' = x3).
Proof.
  split.
  - intros parsed_query translations w' H.
    apply translate_and_execute_query_inv in H
      as (cands & ranked & rs & x1 & x2 & x3 & Hex & -> & ->).
    destruct Hex as [q ert ermrt ermrert rk results y1 y2 y3 Htr Hrank Hfetch].
    exists (ert ++ ermrt ++ ermrert), rk, results, (translated_world query w y1), y2.
    split; [exact (translate_query_returns _ _ _ _ _ _ _ _ Htr) |].
    split; [exact Hrank |].
    split; [exact Hfetch |].
    split; [reflexivity |].
    split; [apply nonempty_translations_sublist |].
    split; [apply py_slice_to_prefix | apply nonempty_translations_truthy].
  - intros parsed_query cands ranked rs x1 x2 x3 Hex.
    eexists.
    split; [exact (translate_and_execute_query_returns _ _ _ _ _ _ _ _ _ _ _ Hex) |].
    reflexivity.
Qed.

(** C8. The two averages are quotients by a count plus 0.001.  In binary64
    arithmetic the float of an int plus the float 0.001 is never a zero,
    whatever the int, so the division always goes through:
    [translate_and_execute_query] never raises [ZeroDivisionError], and a
    returning run logs both averages, also when no backend query was
    executed and no translation was kept. *)
Theorem averages_never_divide_by_zero
    (self : QueryTranslator) (query : string) (n_top : Z) (w : World) :
  (translate_and_execute_query self query n_top w).1 <> Raise ZeroDivisionError /\
  (forall (t : float) (n : Z),
     float_is_zero (float_add (float_of_int n) epsilon) = false /\
     py_truediv t (float_add (float_of_int n) epsilon) w
     = (Return (float_div t (float_add (float_of_int n) epsilon)), w)) /\
  (forall v, (translate_and_execute_query self query n_top w).1 = Return v ->
     exists num_sparql_queries translation_time n_total_translations result_fetch_time,
       EvInfo (LogTranslationExecuted num_sparql_queries translation_time
                 (float_div translation_time
                    (float_add (float_of_int num_sparql_queries) epsilon)))
         ∈ trace (translate_and_execute_query self query n_top w).2 /\
       EvInfo (LogFetched n_total_translations (length v.2) result_fetch_time
                 (float_div result_fetch_time
                    (float_add (float_of_int (Z.of_nat (length v.2))) epsilon)))
         ∈ trace (translate_and_execute_query self query n_top w).2).
Proof.
  split; [| split].
  - intros Hraise.
    destruct (harmless_translate_and_execute_query self query n_top w) as (_ & _ & He).
    exact (He _ Hraise).
  - intros t n. split; [apply count_plus_epsilon_nonzero | apply py_truediv_epsilon].
  - intros [q ts] Hv.
    destruct (translate_and_execute_query self query n_top w) as [[v'|e] w'] eqn:Hrun;
      [| discriminate Hv].
    cbn in Hv. inversion Hv; subst v'. clear Hv.
    apply translate_and_execute_query_inv in Hrun
      as (cands & ranked & rs & x1 & x2 & x3 & _ & -> & ->).
    cbn [snd fst trace executed_world]. unfold execution_log, average.
    do 4 eexists. split.
    + apply elem_of_app. right. apply elem_of_app. left. apply list_elem_of_here.
    + apply elem_of_app. right. apply elem_of_app. right.
      apply elem_of_app. right. apply list_elem_of_here.
Qed.

(** *** Swapping the scorer *)

Lemma alloc_fresh (w : World) :
  exists l,
    (l ∉ allocated w) /\
    alloc w = (Return l, mkWorld (ext w) ({[l]} ∪ allocated w)
                                 (extender_parameters w) (trace w)).
Proof. exists (fresh (allocated w)). split; [apply is_fresh | reflexivity]. Qed.

(** [set_scorer] when the linker held is of the class the scorer asks for. *)
Lemma set_scorer_same_class (self : QueryTranslator) (s : Ranker) (w : World) :
  linker_class (entity_linker self) = params_entity_linker_class (get_parameters s) ->
  set_scorer self s w
  = (Return (assign_scorer self s),
     mkWorld (ext w) (allocated w)
             (<[query_extender self := get_parameters s]> (extender_parameters w))
             (trace w)).
Proof.
  intros Hcls. unfold set_scorer. cbn [assign_scorer entity_linker].
  destruct (decide (linker_class (entity_linker self)
                    <> params_entity_linker_class (get_parameters s))) as [Hne|_];
    [contradiction |].
  reflexivity.
Qed.

(** [set_scorer] when the linker held is of another class. *)
Lemma set_scorer_other_class (self : QueryTranslator) (s : Ranker) (w : World) :
  linker_class (entity_linker self) <> params_entity_linker_class (get_parameters s) ->
  exists l,
    (l ∉ allocated w) /\
    set_scorer self s w
    = (Return
         (assign_entity_linker (assign_scorer self s)
            (mkEntityLinker l (params_entity_linker_class (get_parameters s))
                            (get_parameters s) (entity_index self))),
       mkWorld (ext w) ({[l]} ∪ allocated w)
               (<[query_extender self := get_parameters s]> (extender_parameters w))
               (trace w)).
Proof.
  intros Hcls. destruct (alloc_fresh w) as (l & Hl & Halloc).
  exists l. split; [exact Hl |].
  unfold set_scorer. cbn [assign_scorer entity_linker entity_index].
  destruct (decide (linker_class (entity_linker self)
                    <> params_entity_linker_class (get_parameters s))) as [_|Heq];
    [| contradiction].
  unfold EntityLinker_init_from_config, bind. rewrite Halloc. reflexivity.
Qed.

(** C4. After [set_scorer s], [get_scorer] hands back [s].  If the class
    named by [s] differs from the class of the linker held before, the
    translator holds a linker built from the parameters of [s] and the
    translator's entity index, under an identity no object had before the
    call, so it is not the linker held before; if the class is the same, the
    translator holds the very linker it held before. *)
Theorem set_scorer_get_scorer (self : QueryTranslator) (s : Ranker) (w : World) :
  linker_id (entity_linker self) ∈ allocated w ->
  exists self' w',
    set_scorer self s w = (Return self', w') /\
    get_scorer self' = s /\
    (linker_class (entity_linker self) <> params_entity_linker_class (get_parameters s) ->
       (linker_id (entity_linker self') ∉ allocated w) /\
       linker_id (entity_linker self') <> linker_id (entity_linker self) /\
       linker_class (entity_linker self') = params_entity_linker_class (get_parameters s) /\
       linker_parameters (entity_linker self') = get_parameters s /\
       linker_entity_index (entity_linker self') = entity_index self) /\
    (linker_class (entity_linker self) = params_entity_linker_class (get_parameters s) ->
       entity_linker self' = entity_linker self).
Proof.
  intros Hlive.
  destruct (decide (linker_class (entity_linker self)
                    = params_entity_linker_class (get_parameters s))) as [Heq|Hne].
  - eexists _, _. split; [exact (set_scorer_same_class self s w Heq) |].
    split; [reflexivity |]. split; [intros Hne; contradiction | reflexivity].
  - destruct (set_scorer_other_class self s w Hne) as (l & Hl & Hrun).
    eexists _, _. split; [exact Hrun |].
    split; [reflexivity |]. split; [| intros Heq; contradiction].
    intros _. cbn. repeat split; try reflexivity; [exact Hl |].
    intros ->. contradiction.
Qed.

(** C9. [set_scorer] changes the scorer, the parameters of the translator's
    extender and, only when the class differs, the entity linker; the
    backend, the parser, the entity index, the answer-type identifier and
    the reference to the extender stay, and so do the collaborators' state
    and the parameters of every other extender.  When the class is the
    same, the linker is the one held before, with the parameters it was
    built from, while the extender holds the parameters of the new scorer. *)
Theorem set_scorer_frame (self : QueryTranslator) (s : Ranker) (w : World) :
  exists self' w',
    set_scorer self s w = (Return self', w') /\
    scorer self' = s /\
    extender_parameters w' !! query_extender self' = Some (get_parameters s) /\
    backend self' = backend self /\
    nlp self' = nlp self /\
    entity_index self' = entity_index self /\
    answer_type_identifier self' = answer_type_identifier self /\
    query_extender self' = query_extender self /\
    ext w' = ext w /\
    trace w' = trace w /\
    (forall l, l <> query_extender self ->
               extender_parameters w' !! l = extender_parameters w !! l) /\
    (linker_class (entity_linker self) = params_entity_linker_class (get_parameters s) ->
       entity_linker self' = entity_linker self /\
       linker_parameters (entity_linker self') = linker_parameters (entity_linker self) /\
       allocated w' = allocated w).
Proof.
  destruct (decide (linker_class (entity_linker self)
                    = params_entity_linker_class (get_parameters s))) as [Heq|Hne].
  - eexists _, _. split; [exact (set_scorer_same_class self s w Heq) |].
    cbn. rewrite lookup_insert_eq.
    repeat (split; [reflexivity |]).
    split; [| auto].
    intros l Hl. now rewrite lookup_insert_ne.
  - destruct (set_scorer_other_class self s w Hne) as (l & Hl & Hrun).
    eexists _, _. split; [exact Hrun |].
    cbn. rewrite lookup_insert_eq.
    repeat (split; [reflexivity |]).
    split; [| intros Heq; contradiction].
    intros l' Hl'. now rewrite lookup_insert_ne.
Qed.

(** *** The extender follows the scorer *)

Lemma init_from_config_wired (w : World) :
  exists self w',
    init_from_config w = (Return self, w') /\
    wired self w' /\
    scorer self = SimpleScoreRanker "DefaultScorer" /\
    linker_class (entity_linker self)
    = params_entity_linker_class (get_parameters (scorer self)) /\
    linker_parameters (entity_linker self) = get_parameters (scorer self) /\
    linker_id (entity_linker self) <> query_extender self.
Proof.
  unfold init_from_config, QueryCandidateExtender_init_from_config,
    EntityLinker_init_from_config, QueryTranslator_init, set_parameters,
    alloc, bind, ret, wired.
  cbn. eexists _, _. split; [reflexivity |]. cbn.
  rewrite lookup_insert_eq. repeat (split; [reflexivity |]).
  intros Heq.
  pose proof (is_fresh ({[fresh (allocated w)]} ∪ allocated w)) as Hfresh.
  rewrite Heq in Hfresh. set_solver.
Qed.

Lemma QueryTranslator_init_wired
    (b : Backend) (qe : loc) (l : EntityLinker) (n : Nlp) (s : Ranker)
    (i : EntityIndex) (a : AnswerTypeIdentifier) (w : World) :
  exists self w',
    QueryTranslator_init b qe l n s i a w = (Return self, w') /\
    scorer self = s /\ query_extender self = qe /\ wired self w'.
Proof.
  eexists _, _. split; [reflexivity |]. unfold wired. cbn.
  rewrite lookup_insert_eq. auto.
Qed.

Lemma set_scorer_wired (self : QueryTranslator) (s : Ranker) (w : World) :
  exists self' w',
    set_scorer self s w = (Return self', w') /\ scorer self' = s /\ wired self' w'.
Proof.
  destruct (decide (linker_class (entity_linker self)
                    = params_entity_linker_class (get_parameters s))) as [Heq|Hne].
  - eexists _, _. split; [exact (set_scorer_same_class self s w Heq) |].
    unfold wired. cbn. rewrite lookup_insert_eq. auto.
  - destruct (set_scorer_other_class self s w Hne) as (l & Hl & Hrun).
    eexists _, _. split; [exact Hrun |].
    unfold wired. cbn. rewrite lookup_insert_eq. auto.
Qed.

Lemma step_wired (st : QueryTranslator * World) (op : Op) :
  wired st.1 st.2 -> wired (step st op).1 (step st op).2.
Proof.
  destruct st as [self w]. cbn [fst snd]. intros Hw.
  destruct op as [s| |query_text|query n_top]; cbn [step fst snd].
  - destruct (set_scorer_wired self s w) as (self' & w' & -> & _ & Hw'). exact Hw'.
  - exact Hw.
  - unfold wired in *.
    destruct (harmless_translate_query self query_text w) as (_ & -> & _). exact Hw.
  - unfold wired in *.
    destruct (harmless_translate_and_execute_query self query n_top w) as (_ & -> & _).
    exact Hw.
Qed.

Lemma steps_wired (ops : list Op) :
  forall st : QueryTranslator * World,
    wired st.1 st.2 -> wired (steps ops st).1 (steps ops st).2.
Proof.
  unfold steps. induction ops as [|op ops IH]; intros st Hw; cbn.
  - exact Hw.
  - apply IH, step_wired, Hw.
Qed.

(** C7. The constructor leaves the extender with the parameters of the
    scorer it was given, [set_scorer] leaves it with the parameters of the
    new scorer, and so after the construction and any sequence of calls on
    the translator (scorer changes, translations, returning or not) the
    extender holds the parameters of the scorer that is active. *)
Theorem extender_holds_active_parameters
    (b : Backend) (qe : loc) (l : EntityLinker) (n : Nlp) (s : Ranker)
    (i : EntityIndex) (a : AnswerTypeIdentifier) (w : World) :
  exists self w0,
    QueryTranslator_init b qe l n s i a w = (Return self, w0) /\
    extender_parameters w0 !! query_extender self = Some (get_parameters s) /\
    (forall (st : QueryTranslator * World) (s' : Ranker),
       exists self' w', set_scorer st.1 s' st.2 = (Return self', w') /\
         step st (OpSetScorer s') = (self', w') /\
         extender_parameters w' !! query_extender self' = Some (get_parameters s')) /\
    (forall ops : list Op,
       extender_parameters (steps ops (self, w0)).2
         !! query_extender (steps ops (self, w0)).1
       = Some (get_parameters (get_scorer (steps ops (self, w0)).1))).
Proof.
  destruct (QueryTranslator_init_wired b qe l n s i a w)
    as (self & w0 & Hinit & Hs & Hqe & Hw).
  exists self, w0. split; [exact Hinit |].
  split; [unfold wired in Hw; rewrite Hs in Hw; exact Hw |].
  split.
  - intros [self1 w1] s'. cbn [fst snd].
    destruct (set_scorer_wired self1 s' w1) as (self' & w' & Hrun & Hs' & Hw').
    exists self', w'. split; [exact Hrun |]. split.
    + cbn. now rewrite Hrun.
    + unfold wired in Hw'. rewrite Hs' in Hw'. exact Hw'.
  - intros ops. exact (steps_wired ops (self, w0) Hw).
Qed.

(** *** More on the construction and on the scorer swap *)

(** X1. The translator [init_from_config] builds has the configured
    collaborators and the scorer [DefaultScorer]; its linker and its
    extender are two new objects, distinct from each other; the linker is of
    the class the scorer's parameters name and is built from those
    parameters and the entity index; the extender holds the scorer's
    parameters.  Nothing else of the store changes. *)
Theorem init_from_config_builds (w : World) :
  exists self w',
    init_from_config w = (Return self, w') /\
    scorer self = SimpleScoreRanker "DefaultScorer" /\
    backend self = config_backend /\
    nlp self = spacy_load_en /\
    entity_index self = EntityIndex_init_from_config /\
    answer_type_identifier self = AnswerTypeIdentifier_init_from_config /\
    linker_class (entity_linker self)
    = params_entity_linker_class (get_parameters (scorer self)) /\
    linker_parameters (entity_linker self) = get_parameters (scorer self) /\
    linker_entity_index (entity_linker self) = entity_index self /\
    extender_parameters w' !! query_extender self = Some (get_parameters (scorer self)) /\
    (query_extender self ∉ allocated w) /\
    (linker_id (entity_linker self) ∉ allocated w) /\
    linker_id (entity_linker self) <> query_extender self /\
    allocated w' = {[linker_id (entity_linker self)]} ∪ ({[query_extender self]} ∪ allocated w) /\
    (forall l, l <> query_extender self ->
               extender_parameters w' !! l = extender_parameters w !! l) /\
    ext w' = ext w /\
    trace w' = trace w.
Proof.
  unfold init_from_config, QueryCandidateExtender_init_from_config,
    EntityLinker_init_from_config, QueryTranslator_init, set_parameters,
    alloc, bind, ret.
  cbn. eexists _, _. split; [reflexivity |]. cbn.
  rewrite lookup_insert_eq. repeat (split; [reflexivity |]).
  pose proof (is_fresh (allocated w)) as Hextender.
  pose proof (is_fresh ({[fresh (allocated w)]} ∪ allocated w)) as Hlinker.
  split; [exact Hextender |].
  split; [set_solver |].
  split; [set_solver |].
  split; [reflexivity |].
  split; [| split; reflexivity].
  intros l Hl. now rewrite lookup_insert_ne.
Qed.

Lemma init_from_config_well_formed (w : World) :
  exists self w0,
    init_from_config w = (Return self, w0) /\
    consistent self /\ well_formed self w0 /\
    linker_entity_index (entity_linker self) = entity_index self.
Proof.
  unfold init_from_config, QueryCandidateExtender_init_from_config,
    EntityLinker_init_from_config, QueryTranslator_init, set_parameters,
    alloc, bind, ret, consistent, well_formed.
  cbn. eexists _, _. split; [reflexivity |]. cbn.
  pose proof (is_fresh ({[fresh (allocated w)]} ∪ allocated w)) as Hlinker.
  repeat split.
  - apply elem_of_union_l, elem_of_singleton. reflexivity.
  - apply elem_of_union_r, elem_of_union_l, elem_of_singleton. reflexivity.
  - intros Heq. apply Hlinker. rewrite Heq.
    apply elem_of_union_l, elem_of_singleton. reflexivity.
Qed.

(** X2. After [set_scorer], whatever linker was held before, the linker
    held is of the class the new scorer names. *)
Theorem set_scorer_linker_class (self : QueryTranslator) (s : Ranker) (w : World) :
  exists self' w',
    set_scorer self s w = (Return self', w') /\
    linker_class (entity_linker self')
    = params_entity_linker_class (get_parameters (get_scorer self')).
Proof.
  destruct (decide (linker_class (entity_linker self)
                    = params_entity_linker_class (get_parameters s))) as [Heq|Hne].
  - eexists _, _. split; [exact (set_scorer_same_class self s w Heq) |]. exact Heq.
  - destruct (set_scorer_other_class self s w Hne) as (l & _ & Hrun).
    eexists _, _. split; [exact Hrun | reflexivity].
Qed.

(** X3. Setting the same scorer a second time changes nothing: neither the
    translator nor the store; in particular no second linker is built. *)
Theorem set_scorer_twice (self : QueryTranslator) (s : Ranker) (w : World) :
  exists self' w',
    set_scorer self s w = (Return self', w') /\
    set_scorer self' s w' = (Return self', w').
Proof.
  destruct (decide (linker_class (entity_linker self)
                    = params_entity_linker_class (get_parameters s))) as [Heq|Hne].
  - eexists _, _. split; [exact (set_scorer_same_class self s w Heq) |].
    rewrite set_scorer_same_class by exact Heq.
    cbn. rewrite insert_insert_eq. reflexivity.
  - destruct (set_scorer_other_class self s w Hne) as (l & _ & Hrun).
    eexists _, _. split; [exact Hrun |].
    rewrite set_scorer_same_class by reflexivity.
    cbn. rewrite insert_insert_eq. reflexivity.
Qed.

(** X4. Linkers are never kept for later: after a change to a scorer of
    another linker class and a change back to a scorer of the first class,
    the linker held is a third object, neither the first linker nor the
    second, built from the parameters of the last scorer. *)
Theorem set_scorer_never_reuses
    (self : QueryTranslator) (away back : Ranker) (w : World) :
  linker_id (entity_linker self) ∈ allocated w ->
  params_entity_linker_class (get_parameters back) = linker_class (entity_linker self) ->
  params_entity_linker_class (get_parameters away) <> linker_class (entity_linker self) ->
  exists self1 w1 self2 w2,
    set_scorer self away w = (Return self1, w1) /\
    set_scorer self1 back w1 = (Return self2, w2) /\
    linker_id (entity_linker self2) <> linker_id (entity_linker self) /\
    linker_id (entity_linker self2) <> linker_id (entity_linker self1) /\
    linker_class (entity_linker self2) = linker_class (entity_linker self) /\
    linker_parameters (entity_linker self2) = get_parameters back.
Proof.
  intros Hlive Hback Haway.
  destruct (set_scorer_other_class self away w ltac:(congruence)) as (l1 & Hl1 & Hrun1).
  set (self1 := assign_entity_linker (assign_scorer self away)
                  (mkEntityLinker l1 (params_entity_linker_class (get_parameters away))
                                  (get_parameters away) (entity_index self))) in *.
  set (w1 := mkWorld (ext w) ({[l1]} ∪ allocated w)
               (<[query_extender self := get_parameters away]> (extender_parameters w))
               (trace w)) in *.
  destruct (set_scorer_other_class self1 back w1) as (l2 & Hl2 & Hrun2).
  { cbn. congruence. }
  eexists _, _, _, _. split; [exact Hrun1 |]. split; [exact Hrun2 |].
  cbn in Hl2 |- *.
  split; [intros ->; set_solver |].
  split; [intros ->; set_solver |].
  split; [exact Hback | reflexivity].
Qed.


Lemma step_same_parts (st : QueryTranslator * World) (op : Op) :
  same_parts st.1 (step st op).1 /\ allocated st.2 ⊆ allocated (step st op).2.
Proof.
  destruct st as [self w]. cbn [fst snd]. unfold same_parts.
  destruct op as [s| |query_text|query n_top]; cbn [step fst snd].
  - destruct (decide (linker_class (entity_linker self)
                      = params_entity_linker_class (get_parameters s))) as [Heq|Hne].
    + rewrite set_scorer_same_class by exact Heq. cbn.
      repeat split; try reflexivity.
    + destruct (set_scorer_other_class self s w Hne) as (l & _ & ->). cbn.
      repeat split; try reflexivity. set_solver.
  - repeat split; try reflexivity.
  - destruct (harmless_translate_query self query_text w) as (-> & _ & _).
    repeat split; try reflexivity.
  - destruct (harmless_translate_and_execute_query self query n_top w) as (-> & _ & _).
    repeat split; try reflexivity.
Qed.

Lemma step_consistent (st : QueryTranslator * World) (op : Op) :
  consistent st.1 /\ well_formed st.1 st.2 /\
  linker_entity_index (entity_linker st.1) = entity_index st.1 ->
  consistent (step st op).1 /\ well_formed (step st op).1 (step st op).2 /\
  linker_entity_index (entity_linker (step st op).1) = entity_index (step st op).1.
Proof.
  destruct st as [self w]. cbn [fst snd]. unfold consistent, well_formed.
  intros (Hcls & (Hlinker & Hextender & Hdistinct) & Hindex).
  destruct op as [s| |query_text|query n_top]; cbn [step fst snd].
  - destruct (decide (linker_class (entity_linker self)
                      = params_entity_linker_class (get_parameters s))) as [Heq|Hne].
    + rewrite set_scorer_same_class by exact Heq. cbn. auto.
    + destruct (set_scorer_other_class self s w Hne) as (l & Hl & ->). cbn.
      repeat split; [set_solver | set_solver |].
      intros ->. contradiction.
  - auto.
  - destruct (harmless_translate_query self query_text w) as (-> & _ & _). auto.
  - destruct (harmless_translate_and_execute_query self query n_top w) as (-> & _ & _).
    auto.
Qed.

Lemma steps_consistent (self0 : QueryTranslator) (w0 : World) (ops : list Op) :
  forall st : QueryTranslator * World,
    consistent st.1 /\ well_formed st.1 st.2 /\
    linker_entity_index (entity_linker st.1) = entity_index st.1 ->
    same_parts self0 st.1 /\ allocated w0 ⊆ allocated st.2 ->
    (consistent (steps ops st).1 /\ well_formed (steps ops st).1 (steps ops st).2 /\
     linker_entity_index (entity_linker (steps ops st).1) = entity_index (steps ops st).1) /\
    same_parts self0 (steps ops st).1 /\ allocated w0 ⊆ allocated (steps ops st).2.
Proof.
  unfold steps. induction ops as [|op ops IH]; intros st Hstart Hparts; cbn [fold_left].
  - auto.
  - apply IH; [apply step_consistent, Hstart |].
    destruct Hparts as ((Hb & Hq & Hn & Hi & Ha) & Hsub).
    destruct (step_same_parts st op) as ((Hb' & Hq' & Hn' & Hi' & Ha') & Hsub').
    unfold same_parts. repeat split; [congruence .. | exact (transitivity Hsub Hsub')].
Qed.

(** X5. A translator built by [init_from_config] stays in one piece over
    any sequence of calls (scorer changes, translations, returning or not):
    its linker is of the class its scorer names and is built over its entity
    index, its linker and its extender are two distinct objects of the
    store, and its extender, backend, parser, entity index and answer-type
    identifier are the ones it was built with. *)
Theorem session_keeps_translator_consistent (w : World) (ops : list Op) :
  exists self w0,
    init_from_config w = (Return self, w0) /\
    linker_class (entity_linker (steps ops (self, w0)).1)
    = params_entity_linker_class (get_parameters (get_scorer (steps ops (self, w0)).1)) /\
    linker_entity_index (entity_linker (steps ops (self, w0)).1)
    = entity_index (steps ops (self, w0)).1 /\
    linker_id (entity_linker (steps ops (self, w0)).1) ∈ allocated (steps ops (self, w0)).2 /\
    query_extender (steps ops (self, w0)).1 ∈ allocated (steps ops (self, w0)).2 /\
    linker_id (entity_linker (steps ops (self, w0)).1)
    <> query_extender (steps ops (self, w0)).1 /\
    backend (steps ops (self, w0)).1 = backend self /\
    query_extender (steps ops (self, w0)).1 = query_extender self /\
    nlp (steps ops (self, w0)).1 = nlp self /\
    entity_index (steps ops (self, w0)).1 = entity_index self /\
    answer_type_identifier (steps ops (self, w0)).1 = answer_type_identifier self /\
    allocated w0 ⊆ allocated (steps ops (self, w0)).2.
Proof.
  destruct (init_from_config_well_formed w) as (self & w0 & Hinit & Hstart).
  exists self, w0. split; [exact Hinit |].
  destruct (steps_consistent self w0 ops (self, w0))
    as ((Hc & (Hl & He & Hd) & Hi) & (Hb & Hq & Hn & Hx & Ha) & Hsub).
  - exact Hstart.
  - unfold same_parts. cbn [fst snd]. repeat split; reflexivity.
  - unfold consistent in Hc. unfold get_scorer. repeat split; assumption.
Qed.

(** *** More on [translate_query] *)

(** X6. The query [parse_and_identify_entities] returns has its text,
    its tokens and its entities, and nothing else: the target type, the
    content tokens and the relation oracle are still [None] and it is not a
    count query.  The call creates one query and assigns [tokens], then
    [identified_entities], to it. *)
Theorem parse_and_identify_entities_leaves_rest_unset
    (self : QueryTranslator) (query_text : string) (w w' : World) (query : Query) :
  parse_and_identify_entities self query_text w = (Return query, w') ->
  target_type query = None /\
  content_tokens query = None /\
  relation_oracle query = None /\
  is_count_query query = false /\
  trace w' = trace w ++ [EvNewQuery; EvSetattr F_tokens; EvSetattr F_identified_entities].
Proof.
  unfold parse_and_identify_entities, setattr, require, emit, bind, ret, call, with_ext.
  cbn.
  destruct (nlp_call (nlp self) query_text (ext w)) as [[doc|e] x1] eqn:Hnlp;
    cbn; [| discriminate].
  destruct (identify_entities_in_tokens (entity_linker self) doc x1)
    as [[es|e] x2] eqn:Hlink; cbn; [| discriminate].
  intros H. inversion H; subst. cbn. rewrite <- !app_assoc. auto.
Qed.

(** X7. What [translate_query] adds to the query of
    [parse_and_identify_entities]: in the query it returns, the tokens are
    the parser's document for the raw text and the entities are the
    linker's, the content tokens are [get_content_tokens] of that document,
    the relation oracle is the one of the active scorer's parameters, and
    the target type is what the answer-type identifier found on the query as
    [parse_and_identify_entities] left it, that is, before the relation
    oracle and the content tokens were set. *)
Theorem translate_query_annotates
    (self : QueryTranslator) (query_text : string) (w w' : World)
    (query : Query) (candidates : list QueryCandidate) :
  translate_query self query_text w = (Return (query, candidates), w') ->
  exists query_doc entities x1 w2 parsed_query,
    nlp_call (nlp self) query_text (ext w) = (Return query_doc, x1) /\
    identify_entities_in_tokens (entity_linker self) query_doc x1
    = (Return entities, ext w2) /\
    parse_and_identify_entities self query_text
      (mkWorld (ext w) (allocated w) (extender_parameters w)
               (trace w ++ [EvInfo (LogTranslating query_text)]))
    = (Return parsed_query, w2) /\
    content_tokens parsed_query = None /\
    relation_oracle parsed_query = None /\
    target_type query
    = (identify_target (answer_type_identifier self) parsed_query (ext w2)).1 /\
    tokens query = Some query_doc /\
    identified_entities query = Some entities /\
    content_tokens query = Some (get_content_tokens query_doc) /\
    relation_oracle query = params_relation_oracle (get_parameters (get_scorer self)).
Proof.
  intros H.
  apply translate_query_inv in H as (ert & ermrt & ermrert & x & Htr & _ & _).
  destruct Htr as [doc es l1 l2 l3 x1 x2 x4 x5 x6 t x3 q pm params Hnlp Hlink _ _ _].
  exists doc, es, x1.
  eexists _, (linked doc es).
  split; [exact Hnlp |].
  split; [| split].
  2: { unfold parse_and_identify_entities, setattr, require, emit, bind, ret, call,
         with_ext. cbn. rewrite Hnlp. cbn. rewrite Hlink. cbn. reflexivity. }
  - exact Hlink.
  - subst q t. unfold annotated, linked, get_scorer. cbn. repeat split; reflexivity.
Qed.

(** X8. [translate_query] raises exactly when one of its collaborators
    does: the parser, the linker or a matcher, the first that fails on the
    state its predecessors left.  The exception is the collaborator's own,
    the collaborators' state is as the failing call left it, and the matchers
    after a failing one are not called. *)
Theorem translate_query_raises
    (self : QueryTranslator) (query_text : string) (w : World) :
  (forall (e : exn Err) (w' : World),
     translate_query self query_text w = (Raise e, w') ->
     exists err, e = CollaboratorError err /\
                 translation_failure self query_text w err (ext w')) /\
  (forall (err : Err) (x : Ext),
     translation_failure self query_text w err x ->
     exists w',
       translate_query self query_text w = (Raise (CollaboratorError err), w') /\
       ext w' = x).
Proof.
  split.
  - intros e w'.
    unfold translate_query, parse_and_identify_entities, run_identify_target,
      run_match, setattr,
      info, emit, observe, call_total, require, bind, ret, call, with_ext; cbn.
    destruct (nlp_call (nlp self) query_text (ext w)) as [[doc|e1] x1] eqn:Hnlp; cbn.
    2: { intros H. inversion H; subst. exists e1. split; [reflexivity |].
         cbn. apply parser_fails. exact Hnlp. }
    destruct (identify_entities_in_tokens (entity_linker self) doc x1)
      as [[es|e2] x2] eqn:Hlink; cbn.
    2: { intros H. inversion H; subst. exists e2. split; [reflexivity |].
         cbn. eapply linker_fails; eassumption. }
    pose proof (ert_fails self query_text w doc es x1 x2) as Hert.
    pose proof (ermrt_fails self query_text w doc es x1 x2) as Hermrt.
    pose proof (ermrert_fails self query_text w doc es x1 x2) as Hermrert.
    unfold annotated, linked in Hert, Hermrt, Hermrert.
    cbn in Hert, Hermrt, Hermrert.
    match goal with
    | |- context [match_pattern ERT ?pm ?ps ?x] =>
        destruct (match_pattern ERT pm ps x) as [[l1|e3] x4] eqn:H1; cbn
    end.
    2: { intros H. inversion H; subst. exists e3. split; [reflexivity |].
         exact (Hert e3 x4 Hnlp Hlink eq_refl). }
    match goal with
    | |- context [match_pattern ERMRT ?pm ?ps ?x] =>
        destruct (match_pattern ERMRT pm ps x) as [[l2|e4] x5] eqn:H2; cbn
    end.
    2: { intros H. inversion H; subst. exists e4. split; [reflexivity |].
         exact (Hermrt x4 l1 e4 x5 Hnlp Hlink eq_refl H2). }
    match goal with
    | |- context [match_pattern ERMRERT ?pm ?ps ?x] =>
        destruct (match_pattern ERMRERT pm ps x) as [[l3|e5] x6] eqn:H3; cbn
    end.
    2: { intros H. inversion H; subst. exists e5. split; [reflexivity |].
         exact (Hermrert x4 x5 l1 l2 e5 x6 Hnlp Hlink eq_refl H2 H3). }
    discriminate.
  - intros err x Hfail.
    unfold translate_query, parse_and_identify_entities, run_identify_target,
      run_match, setattr,
      info, emit, observe, call_total, require, bind, ret, call, with_ext; cbn.
    destruct Hfail as [err x Hnlp
                      |doc x1 err x Hnlp Hlink
                      |doc es x1 x2 err x t x3 pm params Hnlp Hlink H1
                      |doc es x1 x2 x4 l1 err x t x3 pm params Hnlp Hlink H1 H2
                      |doc es x1 x2 x4 x5 l1 l2 err x t x3 pm params Hnlp Hlink H1 H2 H3];
      try (subst t x3 pm params; unfold annotated, linked in *; cbn in * );
      rewrite Hnlp; cbn; try (rewrite Hlink; cbn);
      try (rewrite H1; cbn); try (rewrite H2; cbn); try (rewrite H3; cbn);
      eexists; split; reflexivity.
Qed.

(** X9. A translation after [set_scorer s] runs under [s]: the relation
    oracle of the returned query is the one of the parameters of [s], and
    the three matchers see the extender holding those parameters. *)
Theorem translate_query_after_set_scorer
    (self : QueryTranslator) (s : Ranker) (query_text : string) (w : World) :
  exists self' w',
    set_scorer self s w = (Return self', w') /\
    forall (query : Query) (candidates : list QueryCandidate) (w'' : World),
      translate_query self' query_text w' = (Return (query, candidates), w'') ->
      relation_oracle query = params_relation_oracle (get_parameters s) /\
      exists ert_matches ermrt_matches ermrert_matches x0 x1 x2,
        let pattern_matcher :=
          mkQueryPatternMatcher query (query_extender self) (backend self) in
        match_pattern ERT pattern_matcher (Some (get_parameters s)) x0
        = (Return ert_matches, x1) /\
        match_pattern ERMRT pattern_matcher (Some (get_parameters s)) x1
        = (Return ermrt_matches, x2) /\
        match_pattern ERMRERT pattern_matcher (Some (get_parameters s)) x2
        = (Return ermrert_matches, ext w'') /\
        candidates = ert_matches ++ ermrt_matches ++ ermrert_matches.
Proof.
  assert (exists self' w',
            set_scorer self s w = (Return self', w') /\
            scorer self' = s /\
            extender_parameters w' !! query_extender self' = Some (get_parameters s) /\
            backend self' = backend self /\
            query_extender self' = query_extender self)
    as (self' & w' & Hset & Hs & Hparams & Hb & Hq).
  { destruct (decide (linker_class (entity_linker self)
                      = params_entity_linker_class (get_parameters s))) as [Heq|Hne].
    - eexists _, _. split; [exact (set_scorer_same_class self s w Heq) |].
      cbn. rewrite lookup_insert_eq. auto.
    - destruct (set_scorer_other_class self s w Hne) as (l & _ & Hrun).
      eexists _, _. split; [exact Hrun |].
      cbn. rewrite lookup_insert_eq. auto. }
  exists self', w'. split; [exact Hset |].
  intros query candidates w'' H.
  apply translate_query_inv in H as (ert & ermrt & ermrert & x & Htr & -> & ->).
  destruct Htr as [doc es l1 l2 l3 x1 x2 x4 x5 x6 t x3 q pm params _ _ H1 H2 H3].
  subst pm params. rewrite Hparams, Hq, Hb in H1, H2, H3.
  split.
  - subst q. unfold annotated. cbn. rewrite Hs. reflexivity.
  - exists l1, l2, l3, x3, x4, x5. cbn. auto.
Qed.

(** *** More on [translate_and_execute_query] *)

Lemma fetched_length (cs : list QueryCandidate) (x x' : Ext) (rs : list QueryResult) :
  fetched cs x rs x' -> length rs = length cs.
Proof. induction 1; cbn; congruence. Qed.

Lemma fetched_det (cs : list QueryCandidate) :
  forall (x x' x'' : Ext) (rs rs' : list QueryResult),
    fetched cs x rs x' -> fetched cs x rs' x'' -> rs = rs' /\ x' = x''.
Proof.
  induction cs as [|c cs IH]; intros x x' x'' rs rs' H H'.
  - inversion H; inversion H'; subst. auto.
  - inversion H as [|? ? ? y ? r rs0 Hget Hrest]; subst.
    inversion H' as [|? ? ? y' ? r' rs0' Hget' Hrest']; subst.
    rewrite Hget in Hget'. inversion Hget'; subst.
    destruct (IH _ _ _ _ _ Hrest Hrest') as [-> ->]. auto.
Qed.

Lemma fetched_app_inv (cs1 cs2 : list QueryCandidate) :
  forall (x x' : Ext) (rs : list QueryResult),
    fetched (cs1 ++ cs2) x rs x' ->
    exists rs1 rs2 xm,
      rs = rs1 ++ rs2 /\ fetched cs1 x rs1 xm /\ fetched cs2 xm rs2 x'.
Proof.
  induction cs1 as [|c cs1 IH]; intros x x' rs H.
  - exists [], rs, x. repeat split; [constructor | exact H].
  - cbn in H. inversion H as [|? ? ? y ? r rs0 Hget Hrest]; subst.
    destruct (IH _ _ _ Hrest) as (rs1 & rs2 & xm & -> & H1 & H2).
    exists (r :: rs1), rs2, xm. repeat split; [econstructor; eauto | exact H2].
Qed.

Lemma nonempty_translations_app
    (cs1 cs2 : list QueryCandidate) (rs1 rs2 : list QueryResult) :
  length rs1 = length cs1 ->
  nonempty_translations (cs1 ++ cs2) (rs1 ++ rs2)
  = nonempty_translations cs1 rs1 ++ nonempty_translations cs2 rs2.
Proof.
  revert rs1. induction cs1 as [|c cs1 IH]; intros [|r rs1] Hlen;
    try discriminate Hlen; [reflexivity |].
  cbn [app]. rewrite !nonempty_translations_cons.
  rewrite IH by (cbn in Hlen; lia). destruct (truthy r); reflexivity.
Qed.


Lemma fetch_translations_raises (cs : list QueryCandidate) :
  forall (w : World) (translations : list TranslationResult) (n : nat)
         (err : Err) (x : Ext),
    fetch_failure cs (ext w) err x ->
    fetch_translations cs translations n w
    = (Raise (CollaboratorError err), with_ext w x).
Proof.
  induction cs as [|c cs IH]; intros w translations n err x H.
  - inversion H.
  - inversion H as [? ? ? ? ? Hget|? ? ? x' ? r ? Hget Hrest]; subst;
      cbn [fetch_translations].
    + unfold bind, call. rewrite Hget. reflexivity.
    + rewrite (bind_Return _ _ w (with_ext w x') r) by (now apply call_Return).
      destruct (negb (truthy r)); rewrite (IH (with_ext w x') _ _ err x Hrest);
        reflexivity.
Qed.

(** What a run of [translate_and_execute_query] does up to the ranking,
    when the translation returns. *)
Lemma translate_and_execute_query_ranks
    (self : QueryTranslator) (query : string) (n_top : Z) (w w1 : World)
    (parsed_query : Query) (candidates : list QueryCandidate) :
  translate_query self query w = (Return (parsed_query, candidates), w1) ->
  float_is_infinite
    (float_of_int (num_queries_executed (backend self) (ext w1)
                   - num_queries_executed (backend self) (ext w))) = false ->
  let translation_time :=
    milliseconds (total_query_time (backend self) (ext w1))
                 (total_query_time (backend self) (ext w)) in
  let num_sparql_queries :=
    num_queries_executed (backend self) (ext w1)
    - num_queries_executed (backend self) (ext w) in
  let logged :=
    mkWorld (ext w1) (allocated w1) (extender_parameters w1)
            (trace w1 ++
             [EvInfo (LogTranslationExecuted num_sparql_queries translation_time
                        (average translation_time num_sparql_queries));
              EvInfo (LogRanking (length candidates))]) in
  translate_and_execute_query self query n_top w
  = (ranked_candidates <-
       call (rank_query_candidates (scorer self) candidates) ;;
     _ <- info LogFetching ;;
     sparql_query_time <- observe (total_query_time (backend self)) ;;
     _ <- (if Z.of_nat (length ranked_candidates) >? n_top
           then info (LogTruncating n_top) else ret tt) ;;
     fetched <- fetch_translations (py_slice_to ranked_candidates n_top) [] 0%nat ;;
     let '(translations, n_total_translations) := fetched in
     now <- observe (total_query_time (backend self)) ;;
     let result_fetch_time := milliseconds now sparql_query_time in
     divisor <- py_int_add_float (Z.of_nat (length translations)) epsilon ;;
     avg_result_fetch_time <- py_truediv result_fetch_time divisor ;;
     _ <- info (LogFetched n_total_translations (length translations)
                           result_fetch_time avg_result_fetch_time) ;;
     _ <- info (LogDone query) ;;
     ret (parsed_query, translations)) logged.
Proof.
  intros Htq Hfits translation_time num_sparql_queries logged.
  unfold translate_and_execute_query.
  unfold bind at 1. unfold observe at 1.
  unfold bind at 1. unfold observe at 1.
  rewrite (bind_Return _ _ _ _ _ Htq).
  unfold bind at 1. unfold observe at 1.
  unfold bind at 1. unfold observe at 1.
  rewrite average_Return by exact Hfits.
  unfold bind at 1, info at 1, emit at 1.
  unfold bind at 1, info at 1, emit at 1.
  subst logged translation_time num_sparql_queries. cbn [ext allocated extender_parameters trace].
  rewrite <- app_assoc. reflexivity.
Qed.

(** X10. A translation that fails ends [translate_and_execute_query]
    with the same exception and the same store: nothing is ranked, fetched
    or logged after it. *)
Theorem translation_failure_propagates
    (self : QueryTranslator) (query : string) (n_top : Z) (w w1 : World)
    (e : exn Err) :
  translate_query self query w = (Raise e, w1) ->
  translate_and_execute_query self query n_top w = (Raise e, w1).
Proof.
  intros H. unfold translate_and_execute_query.
  unfold bind at 1. unfold observe at 1.
  unfold bind at 1. unfold observe at 1.
  unfold bind at 1. rewrite H. reflexivity.
Qed.

(** X11. When the ranker raises, [translate_and_execute_query] raises the
    ranker's exception and no result is fetched: the collaborators' state is
    as the ranker left it, and the last thing logged is the number of
    candidates to rank. *)
Theorem ranker_failure_aborts
    (self : QueryTranslator) (query : string) (n_top : Z) (w w1 : World)
    (parsed_query : Query) (candidates : list QueryCandidate) (err : Err) (x2 : Ext) :
  translate_query self query w = (Return (parsed_query, candidates), w1) ->
  float_is_infinite
    (float_of_int (num_queries_executed (backend self) (ext w1)
                   - num_queries_executed (backend self) (ext w))) = false ->
  rank_query_candidates (scorer self) candidates (ext w1) = (Raise err, x2) ->
  exists w' before,
    translate_and_execute_query self query n_top w
    = (Raise (CollaboratorError err), w') /\
    ext w' = x2 /\
    trace w' = before ++ [EvInfo (LogRanking (length candidates))].
Proof.
  intros Htq Hfits Hrank.
  rewrite (translate_and_execute_query_ranks self query n_top w w1 _ _ Htq Hfits).
  unfold bind at 1, call at 1. cbn [ext]. rewrite Hrank.
  eexists _, (trace w1 ++ [_]). split; [reflexivity |]. split; [reflexivity |].
  unfold with_ext. cbn [trace]. rewrite <- app_assoc. reflexivity.
Qed.

(** X12. When the fetch of one of the retained candidates raises,
    [translate_and_execute_query] raises that exception: the results
    fetched before it are not handed back, no later candidate is fetched,
    and the collaborators' state is as the failing fetch left it. *)
Theorem fetch_failure_aborts
    (self : QueryTranslator) (query : string) (n_top : Z) (w w1 : World)
    (parsed_query : Query) (candidates ranked : list QueryCandidate)
    (err : Err) (x2 x3 : Ext) :
  translate_query self query w = (Return (parsed_query, candidates), w1) ->
  float_is_infinite
    (float_of_int (num_queries_executed (backend self) (ext w1)
                   - num_queries_executed (backend self) (ext w))) = false ->
  rank_query_candidates (scorer self) candidates (ext w1) = (Return ranked, x2) ->
  fetch_failure (py_slice_to ranked n_top) x2 err x3 ->
  exists w',
    translate_and_execute_query self query n_top w
    = (Raise (CollaboratorError err), w') /\
    ext w' = x3.
Proof.
  intros Htq Hfits Hrank Hfail.
  rewrite (translate_and_execute_query_ranks self query n_top w w1 _ _ Htq Hfits).
  erewrite bind_Return; [| apply call_Return; cbn [ext]; exact Hrank].
  unfold bind at 1, info at 1, emit at 1.
  unfold bind at 1. unfold observe at 1.
  set (w2 := mkWorld _ _ _ _).
  assert (Htrunc : forall k : unit -> M (Query * list TranslationResult),
    bind (if Z.of_nat (length ranked) >? n_top then info (LogTruncating n_top) else ret tt) k w2
    = k tt (mkWorld (ext w2) (allocated w2) (extender_parameters w2)
              (trace w2 ++ (if Z.of_nat (length ranked) >? n_top
                            then [EvInfo (LogTruncating n_top)] else [])))).
  { intros k. unfold bind. destruct (Z.of_nat (length ranked) >? n_top); cbn.
    - reflexivity.
    - rewrite app_nil_r. reflexivity. }
  rewrite Htrunc. clear Htrunc.
  unfold bind at 1.
  rewrite (fetch_translations_raises _ _ [] 0%nat err x3) by (cbn [ext]; exact Hfail).
  eexists. split; reflexivity.
Qed.

Lemma execution_parts
    (self : QueryTranslator) (query : string) (n_top : Z) (w : World)
    (parsed_query : Query) (candidates ranked : list QueryCandidate)
    (results : list QueryResult) (x1 x2 x3 : Ext) :
  execution self query n_top w parsed_query candidates ranked results x1 x2 x3 ->
  translate_query self query w
  = (Return (parsed_query, candidates), translated_world query w x1) /\
  rank_query_candidates (scorer self) candidates x1 = (Return ranked, x2) /\
  fetched (py_slice_to ranked n_top) x2 results x3.
Proof.
  intros [q ert ermrt ermrert rk rs y1 y2 y3 Htr Hrank Hfetch _ _].
  split; [exact (translate_query_returns _ _ _ _ _ _ _ _ Htr) | auto].
Qed.

Lemma returning_run_parts
    (self : QueryTranslator) (query : string) (n_top : Z) (w w1 w' : World)
    (parsed_query parsed_query' : Query) (candidates ranked : list QueryCandidate)
    (x2 : Ext) (translations : list TranslationResult) :
  translate_query self query w = (Return (parsed_query, candidates), w1) ->
  rank_query_candidates (scorer self) candidates (ext w1) = (Return ranked, x2) ->
  translate_and_execute_query self query n_top w
  = (Return (parsed_query', translations), w') ->
  parsed_query' = parsed_query /\
  exists results,
    fetched (py_slice_to ranked n_top) x2 results (ext w') /\
    translations = nonempty_translations (py_slice_to ranked n_top) results /\
    trace w'
    = trace w1 ++ execution_log self query n_top w candidates ranked results
                    (ext w1) x2 (ext w').
Proof.
  intros Htq Hrank H.
  apply translate_and_execute_query_inv in H
    as (cands & rk & rs & x1 & y2 & x3 & Hex & -> & ->).
  apply execution_parts in Hex as (Htq' & Hrank' & Hfetch).
  rewrite Htq in Htq'. injection Htq' as <- <- ->.
  cbn [ext translated_world] in Hrank.
  rewrite Hrank in Hrank'. injection Hrank' as <- <-.
  split; [reflexivity |]. exists rs.
  split; [exact Hfetch | split; reflexivity].
Qed.

(** X13. The limit only cuts the result list: of two returning runs on
    the same question from the same state, with limits [0 <= k <= k'], the
    result list for [k] is a prefix of the result list for [k'], and both
    hand back the same query. *)
Theorem translate_and_execute_query_limit_monotone
    (self : QueryTranslator) (query : string) (k k' : Z) (w w1 w2 : World)
    (parsed_query parsed_query' : Query) (translations translations' : list TranslationResult) :
  0 <= k <= k' ->
  translate_and_execute_query self query k w = (Return (parsed_query, translations), w1) ->
  translate_and_execute_query self query k' w = (Return (parsed_query', translations'), w2) ->
  parsed_query = parsed_query' /\ translations `prefix_of` translations'.
Proof.
  intros Hk H H'.
  apply translate_and_execute_query_inv in H
    as (cands & ranked & rs & x1 & x2 & x3 & Hex & -> & _).
  apply translate_and_execute_query_inv in H'
    as (cands' & ranked' & rs' & x1' & x2' & x3' & Hex' & -> & _).
  apply execution_parts in Hex as (Htq & Hrank & Hfetch).
  apply execution_parts in Hex' as (Htq' & Hrank' & Hfetch').
  rewrite Htq in Htq'. injection Htq' as <- <- <-.
  rewrite Hrank in Hrank'. injection Hrank' as <- <-.
  split; [reflexivity |].
  rewrite (py_slice_to_nonneg ranked k) in Hfetch |- * by lia.
  rewrite (py_slice_to_nonneg ranked k') in Hfetch' |- * by lia.
  assert (Hsplit : take (Z.to_nat k') ranked
                   = take (Z.to_nat k) ranked ++ drop (Z.to_nat k) (take (Z.to_nat k') ranked)).
  { rewrite <- (take_drop (Z.to_nat k) (take (Z.to_nat k') ranked)) at 1.
    rewrite take_take. f_equal. f_equal. lia. }
  rewrite Hsplit in Hfetch' |- *.
  apply fetched_app_inv in Hfetch' as (rs1 & rs2 & xm & -> & Hfetch1 & _).
  destruct (fetched_det _ _ _ _ _ _ Hfetch Hfetch1) as [<- _].
  rewrite nonempty_translations_app by (eapply fetched_length; exact Hfetch).
  apply prefix_app_r. reflexivity.
Qed.

(** X14. With a limit that is not below the number of ranked candidates
    nothing is cut: a returning run has fetched every ranked candidate, in
    rank order, and its result list is the whole ranking, each candidate
    with its result, without the pairs whose result is false. *)
Theorem limit_beyond_ranking_keeps_all
    (self : QueryTranslator) (query : string) (n_top : Z) (w w1 w' : World)
    (parsed_query parsed_query' : Query) (candidates ranked : list QueryCandidate)
    (x2 : Ext) (translations : list TranslationResult) :
  translate_query self query w = (Return (parsed_query, candidates), w1) ->
  rank_query_candidates (scorer self) candidates (ext w1) = (Return ranked, x2) ->
  Z.of_nat (length ranked) <= n_top ->
  translate_and_execute_query self query n_top w
  = (Return (parsed_query', translations), w') ->
  exists results,
    length results = length ranked /\
    fetched ranked x2 results (ext w') /\
    translations = nonempty_translations ranked results /\
    query_candidate <$> translations `sublist_of` ranked.
Proof.
  intros Htq Hrank Hlen H.
  destruct (returning_run_parts _ _ _ _ _ _ _ _ _ _ _ _ Htq Hrank H)
    as (_ & rs & Hfetch & -> & _).
  assert (Hall : py_slice_to ranked n_top = ranked).
  { rewrite py_slice_to_nonneg by lia. apply take_ge. lia. }
  rewrite Hall in *. exists rs.
  split; [eapply fetched_length; exact Hfetch |].
  split; [exact Hfetch | split; [reflexivity | apply nonempty_translations_sublist]].
Qed.


(** X16. After the translation, a returning
    [translate_and_execute_query] logs the number of candidates it ranks,
    and logs a truncation, to the limit it was given, exactly when the ranker
    handed back more candidates than the limit; with a negative limit that
    is always. *)
Theorem truncation_logged_when_over_limit
    (self : QueryTranslator) (query : string) (n_top : Z) (w w1 w' : World)
    (parsed_query parsed_query' : Query) (candidates ranked : list QueryCandidate)
    (x2 : Ext) (translations : list TranslationResult) :
  translate_query self query w = (Return (parsed_query, candidates), w1) ->
  rank_query_candidates (scorer self) candidates (ext w1) = (Return ranked, x2) ->
  translate_and_execute_query self query n_top w
  = (Return (parsed_query', translations), w') ->
  exists added,
    trace w' = trace w1 ++ added /\
    EvInfo (LogRanking (length candidates)) ∈ added /\
    (EvInfo (LogTruncating n_top) ∈ added <-> n_top < Z.of_nat (length ranked)) /\
    (forall n, EvInfo (LogTruncating n) ∈ added -> n = n_top).
Proof.
  intros Htq Hrank H.
  destruct (returning_run_parts _ _ _ _ _ _ _ _ _ _ _ _ Htq Hrank H)
    as (_ & rs & _ & _ & Htrace).
  eexists. split; [exact Htrace |].
  unfold execution_log.
  split; [| split].
  - rewrite !elem_of_app, !elem_of_cons. tauto.
  - rewrite !elem_of_app, !elem_of_cons, !elem_of_nil.
    destruct (Z.gtb_spec (Z.of_nat (length ranked)) n_top) as [Hgt|Hle].
    + rewrite !elem_of_cons. split; [lia | tauto].
    + rewrite !elem_of_nil. split; [| lia].
      intros Hin.
      repeat match type of Hin with
             | _ \/ _ => destruct Hin as [Hin|Hin]
             end; try discriminate Hin; try contradiction.
  - intros n.
    rewrite !elem_of_app, !elem_of_cons, !elem_of_nil.
    destruct (Z.of_nat (length ranked) >? n_top);
      rewrite ?elem_of_cons, ?elem_of_nil; intros Hin;
      repeat match type of Hin with
             | _ \/ _ => destruct Hin as [Hin|Hin]
             end; try discriminate Hin; try contradiction.
    congruence.
Qed.

(** X17. A negative limit counts from the end of the ranking, as a
    Python slice does: a returning run has fetched the ranking without its
    last [-n_top] candidates and hands back those of them whose result is
    true, so at most [len(ranked) + n_top] results, and none when the
    ranking has no more than [-n_top] candidates. *)
Theorem negative_limit_drops_the_tail
    (self : QueryTranslator) (query : string) (n_top : Z) (w w1 w' : World)
    (parsed_query parsed_query' : Query) (candidates ranked : list QueryCandidate)
    (x2 : Ext) (translations : list TranslationResult) :
  n_top < 0 ->
  translate_query self query w = (Return (parsed_query, candidates), w1) ->
  rank_query_candidates (scorer self) candidates (ext w1) = (Return ranked, x2) ->
  translate_and_execute_query self query n_top w
  = (Return (parsed_query', translations), w') ->
  exists results,
    fetched (take (length ranked - Z.to_nat (- n_top)) ranked) x2 results (ext w') /\
    translations
    = nonempty_translations (take (length ranked - Z.to_nat (- n_top)) ranked) results /\
    Z.of_nat (length translations) <= Z.max 0 (Z.of_nat (length ranked) + n_top) /\
    (Z.of_nat (length ranked) <= - n_top -> translations = []).
Proof.
  intros Hneg Htq Hrank H.
  destruct (returning_run_parts _ _ _ _ _ _ _ _ _ _ _ _ Htq Hrank H)
    as (_ & rs & Hfetch & -> & _).
  assert (Hslice : py_slice_to ranked n_top
                   = take (length ranked - Z.to_nat (- n_top)) ranked).
  { unfold py_slice_to. destruct (Z.leb_spec 0 n_top); [lia |]. f_equal. lia. }
  rewrite Hslice in *.
  exists rs.
  split; [exact Hfetch | split; [reflexivity |]].
  pose proof (nonempty_translations_length
                (take (length ranked - Z.to_nat (- n_top)) ranked) rs) as Hlen.
  rewrite length_take in Hlen.
  split; [lia |].
  intros Hshort.
  destruct (nonempty_translations _ rs); [reflexivity |].
  cbn [length] in Hlen. lia.
Qed.




(** X19. Handing a translator its own scorer changes nothing, provided
    its linker is of the class that scorer names and its extender holds that
    scorer's parameters (as they do after [init_from_config] and after any
    [set_scorer]): [set_scorer(get_scorer())] gives back the same translator
    and the same store. *)
Theorem set_scorer_of_get_scorer (self : QueryTranslator) (w : World) :
  linker_class (entity_linker self)
  = params_entity_linker_class (get_parameters (get_scorer self)) ->
  extender_parameters w !! query_extender self = Some (get_parameters (get_scorer self)) ->
  set_scorer self (get_scorer self) w = (Return self, w).
Proof.
  intros Hcls Hparams.
  rewrite set_scorer_same_class by exact Hcls.
  unfold get_scorer in *. rewrite insert_id by exact Hparams.
  destruct self, w. reflexivity.
Qed.

(** X20. [translate_query] logs the question first.  A returning run logs
    one more message, the total translation time, after the last matcher;
    the time is taken from the clock as the call found it and as the last
    matcher left it.  A run that raises logs nothing after the question. *)
Theorem translate_query_logs
    (self : QueryTranslator) (query_text : string) (w : World) :
  (forall (query : Query) (candidates : list QueryCandidate) (w' : World),
     translate_query self query_text w = (Return (query, candidates), w') ->
     trace w'
     = trace w ++ [EvInfo (LogTranslating query_text)] ++ lifecycle
         ++ [EvInfo (LogTotalTranslationTime
                       (milliseconds (clock (ext w')) (clock (ext w))))]) /\
  (forall (e : exn Err) (w' : World),
     translate_query self query_text w = (Raise e, w') ->
     exists middle,
       trace w' = trace w ++ [EvInfo (LogTranslating query_text)] ++ middle /\
       query_events middle = middle).
Proof.
  split.
  - intros query candidates w' H.
    apply translate_query_inv in H as (ert & ermrt & ermrert & x & _ & _ & ->).
    reflexivity.
  - intros e w'. unfold_translate_query.
    repeat next_call; intros H; try discriminate H; injection H as <- <-;
      cbn [trace]; eexists;
      (split; [repeat rewrite <- app_assoc; reflexivity |]); reflexivity.
Qed.

End Properties.

(** ** The properties at work in the small world *)

Lemma Toy_no_entities_no_matches : @no_entities_no_matches Toy.data Toy.collaborators.
Proof.
  intros t pm params x Hnone. eexists. cbn.
  unfold Toy.matches. rewrite Hnone. destruct t; reflexivity.
Defined.

Lemma translate_and_execute_query_bounded_witness :
  (0 <= 3 /\
   Toy.execute_run 3 = (Return (Toy.parsed, Toy.kept), (Toy.execute_run 3).2) /\
   Z.of_nat (length Toy.kept) <= 3) /\
  (0 <= 0 /\
   Toy.translate_run.1 = Return (Toy.parsed, Toy.candidates) /\
   Toy.execute_run 0 = (Return (Toy.parsed, []), (Toy.execute_run 0).2)).
Proof.
  assert (H3 : 0 <= 3) by lia.
  assert (H0 : 0 <= 0) by lia.
  assert (Hrun3 : Toy.execute_run 3 = (Return (Toy.parsed, Toy.kept), (Toy.execute_run 3).2))
    by (vm_compute; reflexivity).
  assert (Hrun0 : Toy.execute_run 0 = (Return (Toy.parsed, []), (Toy.execute_run 0).2))
    by (vm_compute; reflexivity).
  split.
  - split; [exact H3 | split; [exact Hrun3 |]].
    exact (proj1 (proj1 (@translate_and_execute_query_bounded Toy.data Toy.collaborators
                           Toy.self Toy.question 3 Toy.world H3) _ _ _ Hrun3)).
  - split; [exact H0 | split; [vm_compute; reflexivity | exact Hrun0]].
Defined.

Lemma translate_and_execute_query_subsequence_witness :
  Toy.execute_run 3 = (Return (Toy.parsed, Toy.kept), (Toy.execute_run 3).2) /\
  exists candidates ranked results w1 x2,
    Toy.translate_run = (Return (Toy.parsed, candidates), w1) /\
    @rank_query_candidates Toy.data Toy.collaborators
      (@scorer Toy.data Toy.self) candidates (@ext Toy.data w1)
    = (Return ranked, x2) /\
    @fetched Toy.data Toy.collaborators (py_slice_to ranked 3) x2 results
             (@ext Toy.data (Toy.execute_run 3).2) /\
    Toy.kept = @nonempty_translations Toy.data (py_slice_to ranked 3) results /\
    query_candidate <$> Toy.kept `sublist_of` py_slice_to ranked 3 /\
    py_slice_to ranked 3 `prefix_of` ranked /\
    Forall (fun t => @truthy Toy.data (query_result_rows t) = true) Toy.kept.
Proof.
  assert (Hrun : Toy.execute_run 3 = (Return (Toy.parsed, Toy.kept), (Toy.execute_run 3).2))
    by (vm_compute; reflexivity).
  split; [exact Hrun |].
  exact (proj1 (@translate_and_execute_query_subsequence Toy.data Toy.collaborators
                  Toy.self Toy.question 3 Toy.world) _ _ _ Hrun).
Defined.

Lemma translate_query_concatenates_witness :
  Toy.translate_run = (Return (Toy.parsed, Toy.candidates), Toy.translate_run.2) /\
  exists ert_matches ermrt_matches ermrert_matches,
    ert_matches = [(ERT, "Berlin"); (ERT, "Paris")]%string /\
    ermrt_matches = [(ERMRT, "Berlin"); (ERMRT, "Paris")]%string /\
    ermrert_matches = [] /\
    Toy.candidates = ert_matches ++ ermrt_matches ++ ermrert_matches.
Proof.
  assert (Hrun : Toy.translate_run
                 = (Return (Toy.parsed, Toy.candidates), Toy.translate_run.2))
    by (vm_compute; reflexivity).
  split; [exact Hrun |].
  destruct (proj1 (@translate_query_concatenates Toy.data Toy.collaborators
                     Toy.self Toy.question Toy.world) _ _ _ Hrun)
    as (l1 & l2 & l3 & x0 & x1 & x2 & H1 & H2 & H3 & Hcat).
  exists l1, l2, l3.
  apply (f_equal fst) in H1, H2, H3. cbn in H1, H2, H3.
  assert (E1 : l1 = [(ERT, "Berlin"); (ERT, "Paris")]%string)
    by (injection H1 as <-; reflexivity).
  assert (E2 : l2 = [(ERMRT, "Berlin"); (ERMRT, "Paris")]%string)
    by (injection H2 as <-; reflexivity).
  assert (E3 : l3 = []) by (injection H3 as <-; reflexivity).
  split; [exact E1 | split; [exact E2 | split; [exact E3 | exact Hcat]]].
Defined.

Lemma set_scorer_get_scorer_witness :
  (2%positive ∈ @allocated Toy.data Toy.world) /\
  exists self' w',
    @set_scorer Toy.data Toy.self Toy.fancy_scorer Toy.world = (Return self', w') /\
    @get_scorer Toy.data self' = Toy.fancy_scorer /\
    @linker_class Toy.data (@entity_linker Toy.data self') = Toy.FancyLinker /\
    @linker_id Toy.data (@entity_linker Toy.data self') <> 2%positive.
Proof.
  assert (Hlive : @linker_id Toy.data (@entity_linker Toy.data Toy.self)
                  ∈ @allocated Toy.data Toy.world)
    by (cbn; set_solver).
  split; [exact Hlive |].
  destruct (@set_scorer_get_scorer Toy.data Toy.self Toy.fancy_scorer Toy.world Hlive)
    as (self' & w' & Hrun & Hget & Hother & _).
  exists self', w'. split; [exact Hrun | split; [exact Hget |]].
  assert (Hne : @linker_class Toy.data (@entity_linker Toy.data Toy.self)
                <> @params_entity_linker_class Toy.data
                     (@get_parameters Toy.data Toy.fancy_scorer))
    by (cbn; discriminate).
  destruct (Hother Hne) as (_ & Hid & Hcls & _).
  split; [exact Hcls | exact Hid].
Defined.

Lemma translate_query_without_entities_witness :
  @identify_entities_in_tokens Toy.data Toy.collaborators
    (@entity_linker Toy.data Toy.self) Toy.plain_question (@ext Toy.data Toy.world)
  = (Return [], @ext Toy.data Toy.world) /\
  exists query w',
    Toy.translate_plain_run = (Return (query, []), w').
Proof.
  assert (Hnlp : @nlp_call Toy.data Toy.collaborators (@nlp Toy.data Toy.self)
                   Toy.plain_question (@ext Toy.data Toy.world)
                 = (Return (Toy.plain_question : @Doc Toy.data), @ext Toy.data Toy.world))
    by reflexivity.
  assert (Hlink : @identify_entities_in_tokens Toy.data Toy.collaborators
                    (@entity_linker Toy.data Toy.self) Toy.plain_question
                    (@ext Toy.data Toy.world)
                  = (Return [], @ext Toy.data Toy.world))
    by (vm_compute; reflexivity).
  split; [exact Hlink |].
  destruct (@translate_query_without_entities Toy.data Toy.collaborators
              Toy.self Toy.plain_question Toy.world Toy.plain_question _ _
              Toy_no_entities_no_matches Hnlp Hlink)
    as (query & x & _ & _ & Hrun).
  exists query, (@translated_world Toy.data Toy.collaborators Toy.plain_question Toy.world x).
  exact Hrun.
Defined.

Lemma parse_before_lowercase_witness :
  Toy.question = "Who founded Berlin and Paris"%string /\
  Toy.parse_run.1
  = Return (@mkQuery Toy.data "who founded berlin and paris" None
              (Some "Who founded Berlin and Paris"%string) None
              (Some ["Berlin"; "Paris"]%string) None false) /\
  exists query_doc entities,
    @nlp_call Toy.data Toy.collaborators (@nlp Toy.data Toy.self)
      "Who founded Berlin and Paris" (@ext Toy.data Toy.world)
    = (Return query_doc, @ext Toy.data Toy.world) /\
    "who founded berlin and paris"%string = lower (@doc_text Toy.data query_doc) /\
    Some ("Who founded Berlin and Paris"%string : @Doc Toy.data) = Some query_doc /\
    Some ["Berlin"; "Paris"]%string = Some entities /\
    (forall (i : nat) (c' : ascii),
       String.get i "who founded berlin and paris" = Some c' -> is_capital c' = false).
Proof.
  assert (Hrun : Toy.parse_run
                 = (Return (@mkQuery Toy.data "who founded berlin and paris" None
                              (Some "Who founded Berlin and Paris"%string) None
                              (Some ["Berlin"; "Paris"]%string) None false),
                    Toy.parse_run.2))
    by (vm_compute; reflexivity).
  split; [reflexivity |].
  split; [rewrite Hrun; reflexivity |].
  destruct (proj1 (@parse_before_lowercase Toy.data Toy.collaborators
                     Toy.self Toy.question Toy.world) _ _ Hrun)
    as (doc & es & x1 & Hnlp & _ & Htext & Htok & Hent & _ & _ & Hcap).
  exists doc, es.
  assert (Hx1 : x1 = @ext Toy.data Toy.world).
  { apply (f_equal snd) in Hnlp. cbn in Hnlp. symmetry. exact Hnlp. }
  rewrite Hx1 in Hnlp.
  split; [exact Hnlp | split; [exact Htext | split; [exact Htok | split; [exact Hent |]]]].
  exact Hcap.
Defined.

(** C5, as the specification words it, fails: in this returning run the
    relation oracle is assigned before the content tokens. *)
Lemma specified_order_counterexample :
  Toy.translate_run.1 = Return (Toy.parsed, Toy.candidates) /\
  assignments (@trace Toy.data Toy.translate_run.2)
  = [F_tokens; F_identified_entities; F_target_type; F_relation_oracle; F_content_tokens] /\
  assignments (@trace Toy.data Toy.translate_run.2) <> specified_order.
Proof.
  assert (H : assignments (@trace Toy.data Toy.translate_run.2)
              = [F_tokens; F_identified_entities; F_target_type;
                 F_relation_oracle; F_content_tokens])
    by (vm_compute; reflexivity).
  split; [vm_compute; reflexivity | split; [exact H |]].
  rewrite H. unfold specified_order. intros Heq. discriminate Heq.
Qed.

Lemma set_scorer_frame_witness :
  exists self' w',
    @set_scorer Toy.data Toy.self Toy.oracle_scorer Toy.world = (Return self', w') /\
    @entity_linker Toy.data self' = Toy.linker /\
    @linker_parameters Toy.data (@entity_linker Toy.data self') = Toy.default_params /\
    @extender_parameters Toy.data w' !! 1%positive
    = Some (Toy.mkParams Toy.PlainLinker (Some "founded_by"%string)).
Proof.
  destruct (@set_scorer_frame Toy.data Toy.self Toy.oracle_scorer Toy.world)
    as (self' & w' & Hrun & _ & Hext & _ & _ & _ & _ & Hqe & _ & _ & _ & Hsame).
  destruct (Hsame eq_refl) as (Hlinker & _ & _).
  exists self', w'. split; [exact Hrun |].
  split; [exact Hlinker | split; [rewrite Hlinker; reflexivity |]].
  rewrite Hqe in Hext. exact Hext.
Defined.

Lemma extender_holds_active_parameters_witness :
  exists self w0,
    @QueryTranslator_init Toy.data tt 1%positive Toy.linker tt Toy.default_scorer tt tt
      Toy.world = (Return self, w0) /\
    @extender_parameters Toy.data
      (@steps Toy.data Toy.collaborators Toy.session (self, w0)).2
      !! @query_extender Toy.data
           (@steps Toy.data Toy.collaborators Toy.session (self, w0)).1
    = Some (@get_parameters Toy.data
              (@get_scorer Toy.data
                 (@steps Toy.data Toy.collaborators Toy.session (self, w0)).1)).
Proof.
  destruct (@extender_holds_active_parameters Toy.data Toy.collaborators
              tt 1%positive Toy.linker tt Toy.default_scorer tt tt Toy.world)
    as (self & w0 & Hinit & _ & _ & Hall).
  exists self, w0. split; [exact Hinit | exact (Hall Toy.session)].
Defined.

Lemma averages_never_divide_by_zero_witness :
  Toy.execute_plain_run 200
  = (Return (@annotated Toy.data Toy.collaborators Toy.self Toy.plain_question []
               (Some 0%nat), []),
     (Toy.execute_plain_run 200).2) /\
  @num_queries_executed Toy.data Toy.collaborators tt
    (@ext Toy.data (Toy.execute_plain_run 200).2) = 0 /\
  exists num_sparql_queries translation_time n_total_translations result_fetch_time,
    EvInfo (LogTranslationExecuted num_sparql_queries translation_time
              (float_div translation_time
                 (float_add (float_of_int num_sparql_queries) epsilon)))
      ∈ @trace Toy.data (Toy.execute_plain_run 200).2 /\
    EvInfo (LogFetched n_total_translations 0 result_fetch_time
              (float_div result_fetch_time (float_add (float_of_int 0) epsilon)))
      ∈ @trace Toy.data (Toy.execute_plain_run 200).2.
Proof.
  assert (Hrun : Toy.execute_plain_run 200
                 = (Return (@annotated Toy.data Toy.collaborators Toy.self
                              Toy.plain_question [] (Some 0%nat), []),
                    (Toy.execute_plain_run 200).2))
    by (vm_compute; reflexivity).
  split; [exact Hrun | split; [vm_compute; reflexivity |]].
  destruct (@averages_never_divide_by_zero Toy.data Toy.collaborators
              Toy.self Toy.plain_question 200 Toy.world) as (_ & _ & Hlog).
  exact (Hlog _ (f_equal fst Hrun)).
Defined.

Lemma set_scorer_never_reuses_witness :
  exists self1 w1 self2 w2,
    @set_scorer Toy.data Toy.self Toy.fancy_scorer Toy.world = (Return self1, w1) /\
    @set_scorer Toy.data self1 Toy.default_scorer w1 = (Return self2, w2) /\
    @linker_id Toy.data (@entity_linker Toy.data self2) <> 2%positive /\
    @linker_id Toy.data (@entity_linker Toy.data self2)
    <> @linker_id Toy.data (@entity_linker Toy.data self1) /\
    @linker_class Toy.data (@entity_linker Toy.data self2) = Toy.PlainLinker.
Proof.
  assert (Hlive : @linker_id Toy.data (@entity_linker Toy.data Toy.self)
                  ∈ @allocated Toy.data Toy.world)
    by (cbn; set_solver).
  assert (Hback : @params_entity_linker_class Toy.data
                    (@get_parameters Toy.data Toy.default_scorer)
                  = @linker_class Toy.data (@entity_linker Toy.data Toy.self))
    by reflexivity.
  assert (Haway : @params_entity_linker_class Toy.data
                    (@get_parameters Toy.data Toy.fancy_scorer)
                  <> @linker_class Toy.data (@entity_linker Toy.data Toy.self))
    by (cbn; discriminate).
  destruct (@set_scorer_never_reuses Toy.data Toy.self Toy.fancy_scorer
              Toy.default_scorer Toy.world Hlive Hback Haway)
    as (self1 & w1 & self2 & w2 & Hrun1 & Hrun2 & Hfirst & Hsecond & Hcls & _).
  exists self1, w1, self2, w2.
  split; [exact Hrun1 | split; [exact Hrun2 |]].
  split; [exact Hfirst | split; [exact Hsecond | exact Hcls]].
Defined.

Lemma parse_and_identify_entities_leaves_rest_unset_witness :
  Toy.parse_run
  = (Return (@linked Toy.data Toy.question ["Berlin"; "Paris"]%string), Toy.parse_run.2) /\
  @content_tokens Toy.data (@linked Toy.data Toy.question ["Berlin"; "Paris"]%string) = None /\
  @trace Toy.data Toy.parse_run.2
  = @trace Toy.data Toy.world
    ++ [EvNewQuery; EvSetattr F_tokens; EvSetattr F_identified_entities].
Proof.
  assert (Hrun : Toy.parse_run
                 = (Return (@linked Toy.data Toy.question ["Berlin"; "Paris"]%string),
                    Toy.parse_run.2))
    by (vm_compute; reflexivity).
  split; [exact Hrun |].
  destruct (@parse_and_identify_entities_leaves_rest_unset Toy.data Toy.collaborators
              Toy.self Toy.question Toy.world _ _ Hrun)
    as (_ & Hcontent & _ & _ & Htrace).
  split; [exact Hcontent | exact Htrace].
Defined.

Lemma translate_query_annotates_witness :
  Toy.translate_run = (Return (Toy.parsed, Toy.candidates), Toy.translate_run.2) /\
  exists query_doc,
    @tokens Toy.data Toy.parsed = Some query_doc /\
    @content_tokens Toy.data Toy.parsed
    = Some (@get_content_tokens Toy.data Toy.collaborators query_doc) /\
    @relation_oracle Toy.data Toy.parsed
    = @params_relation_oracle Toy.data
        (@get_parameters Toy.data (@get_scorer Toy.data Toy.self)).
Proof.
  assert (Hrun : Toy.translate_run
                 = (Return (Toy.parsed, Toy.candidates), Toy.translate_run.2))
    by (vm_compute; reflexivity).
  split; [exact Hrun |].
  destruct (@translate_query_annotates Toy.data Toy.collaborators
              Toy.self Toy.question Toy.world _ _ _ Hrun)
    as (doc & es & x1 & w2 & q & _ & _ & _ & _ & _ & _ & Htok & _ & Hcontent & Horacle).
  exists doc. split; [exact Htok | split; [exact Hcontent | exact Horacle]].
Defined.

Lemma translate_query_raises_witness :
  Toy.flaky_translate_run Toy.troy_question
  = (Raise (CollaboratorError "timeout"%string),
     (Toy.flaky_translate_run Toy.troy_question).2) /\
  exists err,
    CollaboratorError "timeout"%string = CollaboratorError err /\
    @translation_failure Toy.data Toy.flaky Toy.self Toy.troy_question Toy.world err
      (@ext Toy.data (Toy.flaky_translate_run Toy.troy_question).2).
Proof.
  assert (Hrun : Toy.flaky_translate_run Toy.troy_question
                 = (Raise (CollaboratorError "timeout"%string),
                    (Toy.flaky_translate_run Toy.troy_question).2))
    by (vm_compute; reflexivity).
  split; [exact Hrun |].
  exact (proj1 (@translate_query_raises Toy.data Toy.flaky Toy.self Toy.troy_question
                  Toy.world) _ _ Hrun).
Defined.

Lemma translation_failure_propagates_witness :
  Toy.flaky_translate_run EmptyString
  = (Raise (CollaboratorError "empty question"%string),
     (Toy.flaky_translate_run EmptyString).2) /\
  Toy.flaky_execute_run EmptyString 200
  = (Raise (CollaboratorError "empty question"%string),
     (Toy.flaky_translate_run EmptyString).2).
Proof.
  assert (Hrun : Toy.flaky_translate_run EmptyString
                 = (Raise (CollaboratorError "empty question"%string),
                    (Toy.flaky_translate_run EmptyString).2))
    by (vm_compute; reflexivity).
  split; [exact Hrun |].
  exact (@translation_failure_propagates Toy.data Toy.flaky Toy.self EmptyString 200
           Toy.world _ _ Hrun).
Defined.

Lemma ranker_failure_aborts_witness :
  Toy.flaky_translate_run Toy.atlantis_question
  = (Return (@annotated Toy.data Toy.flaky Toy.self Toy.atlantis_question
               ["Atlantis"%string] (Some 0%nat),
             [(ERT, "Atlantis"%string); (ERMRT, "Atlantis"%string)]),
     (Toy.flaky_translate_run Toy.atlantis_question).2) /\
  exists w' before,
    Toy.flaky_execute_run Toy.atlantis_question 200
    = (Raise (CollaboratorError "no model"%string), w') /\
    @ext Toy.data w' = @ext Toy.data (Toy.flaky_translate_run Toy.atlantis_question).2 /\
    @trace Toy.data w' = before ++ [EvInfo (LogRanking 2)].
Proof.
  assert (Htq : Toy.flaky_translate_run Toy.atlantis_question
                = (Return (@annotated Toy.data Toy.flaky Toy.self Toy.atlantis_question
                             ["Atlantis"%string] (Some 0%nat),
                           [(ERT, "Atlantis"%string); (ERMRT, "Atlantis"%string)]),
                   (Toy.flaky_translate_run Toy.atlantis_question).2))
    by (vm_compute; reflexivity).
  assert (Hfits : float_is_infinite
                    (float_of_int
                       (@num_queries_executed Toy.data Toy.flaky (@backend Toy.data Toy.self)
                          (@ext Toy.data (Toy.flaky_translate_run Toy.atlantis_question).2)
                        - @num_queries_executed Toy.data Toy.flaky
                            (@backend Toy.data Toy.self) (@ext Toy.data Toy.world)))
                  = false)
    by (vm_compute; reflexivity).
  assert (Hrank : @rank_query_candidates Toy.data Toy.flaky (@scorer Toy.data Toy.self)
                    [(ERT, "Atlantis"%string); (ERMRT, "Atlantis"%string)]
                    (@ext Toy.data (Toy.flaky_translate_run Toy.atlantis_question).2)
                  = (Raise "no model"%string,
                     @ext Toy.data (Toy.flaky_translate_run Toy.atlantis_question).2))
    by (vm_compute; reflexivity).
  split; [exact Htq |].
  exact (@ranker_failure_aborts Toy.data Toy.flaky Toy.self Toy.atlantis_question 200
           Toy.world _ _ _ _ _ Htq Hfits Hrank).
Defined.

Lemma fetch_failure_aborts_witness :
  Toy.flaky_translate_run Toy.question
  = (Return (Toy.parsed, Toy.candidates), (Toy.flaky_translate_run Toy.question).2) /\
  Toy.flaky_execute_run Toy.question 2
  = (Return (Toy.parsed, []), (Toy.flaky_execute_run Toy.question 2).2) /\
  exists w',
    Toy.flaky_execute_run Toy.question 3
    = (Raise (CollaboratorError "backend down"%string), w').
Proof.
  assert (Htq : Toy.flaky_translate_run Toy.question
                = (Return (Toy.parsed, Toy.candidates),
                   (Toy.flaky_translate_run Toy.question).2))
    by (vm_compute; reflexivity).
  assert (Hfits : float_is_infinite
                    (float_of_int
                       (@num_queries_executed Toy.data Toy.flaky (@backend Toy.data Toy.self)
                          (@ext Toy.data (Toy.flaky_translate_run Toy.question).2)
                        - @num_queries_executed Toy.data Toy.flaky
                            (@backend Toy.data Toy.self) (@ext Toy.data Toy.world)))
                  = false)
    by (vm_compute; reflexivity).
  assert (Hrank : @rank_query_candidates Toy.data Toy.flaky (@scorer Toy.data Toy.self)
                    Toy.candidates
                    (@ext Toy.data (Toy.flaky_translate_run Toy.question).2)
                  = (Return Toy.ranking,
                     @ext Toy.data (Toy.flaky_translate_run Toy.question).2))
    by (vm_compute; reflexivity).
  assert (Hfail : exists x3,
             @fetch_failure Toy.data Toy.flaky (py_slice_to Toy.ranking 3)
               (@ext Toy.data (Toy.flaky_translate_run Toy.question).2)
               "backend down"%string x3).
  { eexists.
    eapply (@fetch_fails_later Toy.data Toy.flaky); [vm_compute; reflexivity |].
    eapply (@fetch_fails_later Toy.data Toy.flaky); [vm_compute; reflexivity |].
    eapply (@fetch_fails_here Toy.data Toy.flaky). vm_compute. reflexivity. }
  destruct Hfail as [x3 Hfail].
  split; [exact Htq | split; [vm_compute; reflexivity |]].
  destruct (@fetch_failure_aborts Toy.data Toy.flaky Toy.self Toy.question 3
              Toy.world _ _ _ _ _ _ _ Htq Hfits Hrank Hfail) as (w' & Hrun & _).
  exists w'. exact Hrun.
Defined.

Lemma translate_and_execute_query_limit_monotone_witness :
  Toy.execute_run 3 = (Return (Toy.parsed, Toy.kept), (Toy.execute_run 3).2) /\
  Toy.execute_run 4 = (Return (Toy.parsed, Toy.all_kept), (Toy.execute_run 4).2) /\
  Toy.kept `prefix_of` Toy.all_kept.
Proof.
  assert (Hk : 0 <= 3 <= 4) by lia.
  assert (Hrun3 : Toy.execute_run 3 = (Return (Toy.parsed, Toy.kept), (Toy.execute_run 3).2))
    by (vm_compute; reflexivity).
  assert (Hrun4 : Toy.execute_run 4
                  = (Return (Toy.parsed, Toy.all_kept), (Toy.execute_run 4).2))
    by (vm_compute; reflexivity).
  split; [exact Hrun3 | split; [exact Hrun4 |]].
  exact (proj2 (@translate_and_execute_query_limit_monotone Toy.data Toy.collaborators
                  Toy.self Toy.question 3 4 Toy.world _ _ _ _ _ _ Hk Hrun3 Hrun4)).
Defined.

Lemma limit_beyond_ranking_keeps_all_witness :
  Toy.execute_run 200 = (Return (Toy.parsed, Toy.all_kept), (Toy.execute_run 200).2) /\
  exists results,
    length results = length Toy.ranking /\
    Toy.all_kept = @nonempty_translations Toy.data Toy.ranking results.
Proof.
  assert (Htq : Toy.translate_run
                = (Return (Toy.parsed, Toy.candidates), Toy.translate_run.2))
    by (vm_compute; reflexivity).
  assert (Hrank : @rank_query_candidates Toy.data Toy.collaborators
                    (@scorer Toy.data Toy.self) Toy.candidates
                    (@ext Toy.data Toy.translate_run.2)
                  = (Return Toy.ranking, @ext Toy.data Toy.translate_run.2))
    by (vm_compute; reflexivity).
  assert (Hlen : Z.of_nat (length Toy.ranking) <= 200) by (cbn; lia).
  assert (Hrun : Toy.execute_run 200
                 = (Return (Toy.parsed, Toy.all_kept), (Toy.execute_run 200).2))
    by (vm_compute; reflexivity).
  split; [exact Hrun |].
  destruct (@limit_beyond_ranking_keeps_all Toy.data Toy.collaborators Toy.self
              Toy.question 200 Toy.world _ _ _ _ _ _ _ _ Htq Hrank Hlen Hrun)
    as (rs & Hrs & _ & Hkept & _).
  exists rs. split; [exact Hrs | exact Hkept].
Defined.


Lemma truncation_logged_when_over_limit_witness :
  Toy.execute_run 3 = (Return (Toy.parsed, Toy.kept), (Toy.execute_run 3).2) /\
  exists added,
    @trace Toy.data (Toy.execute_run 3).2 = @trace Toy.data Toy.translate_run.2 ++ added /\
    EvInfo (LogRanking 4) ∈ added /\
    EvInfo (LogTruncating 3) ∈ added.
Proof.
  assert (Htq : Toy.translate_run
                = (Return (Toy.parsed, Toy.candidates), Toy.translate_run.2))
    by (vm_compute; reflexivity).
  assert (Hrank : @rank_query_candidates Toy.data Toy.collaborators
                    (@scorer Toy.data Toy.self) Toy.candidates
                    (@ext Toy.data Toy.translate_run.2)
                  = (Return Toy.ranking, @ext Toy.data Toy.translate_run.2))
    by (vm_compute; reflexivity).
  assert (Hover : 3 < Z.of_nat (length Toy.ranking)) by (cbn; lia).
  assert (Hrun : Toy.execute_run 3 = (Return (Toy.parsed, Toy.kept), (Toy.execute_run 3).2))
    by (vm_compute; reflexivity).
  split; [exact Hrun |].
  destruct (@truncation_logged_when_over_limit Toy.data Toy.collaborators Toy.self
              Toy.question 3 Toy.world _ _ _ _ _ _ _ _ Htq Hrank Hrun)
    as (added & Htrace & Hranking & Htrunc & _).
  exists added. split; [exact Htrace | split; [exact Hranking |]].
  exact (proj2 Htrunc Hover).
Defined.

Lemma negative_limit_drops_the_tail_witness :
  Toy.execute_run (-1) = (Return (Toy.parsed, Toy.kept), (Toy.execute_run (-1)).2) /\
  Z.of_nat (length Toy.kept) <= Z.max 0 (Z.of_nat (length Toy.ranking) + -1) /\
  Toy.execute_run (-4) = (Return (Toy.parsed, []), (Toy.execute_run (-4)).2).
Proof.
  assert (Hneg : -1 < 0) by lia.
  assert (Htq : Toy.translate_run
                = (Return (Toy.parsed, Toy.candidates), Toy.translate_run.2))
    by (vm_compute; reflexivity).
  assert (Hrank : @rank_query_candidates Toy.data Toy.collaborators
                    (@scorer Toy.data Toy.self) Toy.candidates
                    (@ext Toy.data Toy.translate_run.2)
                  = (Return Toy.ranking, @ext Toy.data Toy.translate_run.2))
    by (vm_compute; reflexivity).
  assert (Hrun : Toy.execute_run (-1)
                 = (Return (Toy.parsed, Toy.kept), (Toy.execute_run (-1)).2))
    by (vm_compute; reflexivity).
  split; [exact Hrun |].
  destruct (@negative_limit_drops_the_tail Toy.data Toy.collaborators Toy.self
              Toy.question (-1) Toy.world _ _ _ _ _ _ _ _ Hneg Htq Hrank Hrun)
    as (rs & _ & _ & Hbound & _).
  split; [exact Hbound | vm_compute; reflexivity].
Defined.

Lemma set_scorer_of_get_scorer_witness :
  @set_scorer Toy.data Toy.self (@get_scorer Toy.data Toy.self) Toy.world
  = (Return Toy.self, Toy.world).
Proof.
  assert (Hcls : @linker_class Toy.data (@entity_linker Toy.data Toy.self)
                 = @params_entity_linker_class Toy.data
                     (@get_parameters Toy.data (@get_scorer Toy.data Toy.self)))
    by reflexivity.
  assert (Hparams : @extender_parameters Toy.data Toy.world
                      !! @query_extender Toy.data Toy.self
                    = Some (@get_parameters Toy.data (@get_scorer Toy.data Toy.self)))
    by (vm_compute; reflexivity).
  exact (@set_scorer_of_get_scorer Toy.data Toy.self Toy.world Hcls Hparams).
Defined.

